(** * Video transcription pipeline: a shallow embedding of [main.py]

    The development follows [main.py] function by function:
    - Python numbers.  [duration] is a Python [float]; every float the
      planner touches is either [duration] itself or an integer-valued
      multiple of the segment length, so the floats are modelled by the
      rationals they denote ([Q]) and [//], [%], [+], [-], [min], [<] by
      their exact counterparts.
    - External collaborators ([subprocess.run], the storage client, the
      speech client, [os.remove], [float(...)], [os.path.splitext]) are
      fields of an environment record [Env]; every call the program makes
      to them is appended to an event log, in program order.
    - Module globals read from [os.getenv] ([BUCKET_NAME],
      [SEGMENT_DIVIDER]) are fields of [Env] as well and hold Python
      values.
    - The [while] loop of [split_audio_into_segments] takes fuel; running
      out of fuel is the outcome [Diverges], distinct from every Python
      exception.
    - [asyncio.gather] is modelled by the order in which the worker tasks
      complete.
    Progress messages written with [print] are left out; the lines printed
    by the final loop of [transcript_from_local_file] are kept.
    Constructing the storage and speech clients is taken to succeed. *)

From stdpp Require Import base list strings.
From Stdlib Require Import ZArith QArith Qround Lqa Lia DecimalString.
From Stdlib Require DecimalPos DecimalZ.
From Stdlib Require Import Ascii.

Open Scope Z_scope.

(** ** Python values and exceptions *)

(** The values a module global bound by [os.getenv], or rebound by a
    caller, can hold. *)
Inductive pyval :=
| PyNone
| PyStr (s : string)
| PyInt (z : Z).

(** [os.getenv(name)]: the variable's text, or [None]. *)
Definition os_getenv (v : option string) : pyval :=
  match v with
  | Some s => PyStr s
  | None => PyNone
  end.

(** [str(v)] as used inside an f-string. *)
Definition py_str_of_int (z : Z) : string := NilZero.string_of_int (Z.to_int z).

Definition py_str (v : pyval) : string :=
  match v with
  | PyNone => "None"
  | PyStr s => s
  | PyInt z => py_str_of_int z
  end.

Inductive exn :=
| TypeError
| ZeroDivisionError
| ValueError
| IndexError
| CalledProcessError
| FileNotFoundError
| SystemExit (code : Z)
| TimeoutError
| GoogleAPICallError (msg : string).

(** Outcome of running a piece of the program. *)
Inductive outcome (A : Type) :=
| Return (a : A)
| Raise (e : exn)
| Diverges.
Arguments Return {A} a.
Arguments Raise {A} e.
Arguments Diverges {A}.

(** ** Float arithmetic on the values the program uses *)

Definition Qltb (x y : Q) : bool := negb (Qle_bool y x).

(** [x // y] on floats, [y] non-zero. *)
Definition py_floordiv (x y : Q) : Q := inject_Z (Qfloor (x / y)).

(** [x % y] on floats, [y] positive. *)
Definition py_mod (x y : Q) : Q := (x - y * inject_Z (Qfloor (x / y)))%Q.

(** [int(x)]: truncation toward zero. *)
Definition py_int (x : Q) : Z := Z.quot (Qnum x) (Z.pos (Qden x)).

(** [min(a, b)]: the first argument unless the second is smaller. *)
Definition py_min (a b : Q) : Q := if Qltb b a then b else a.

(** [duration // SEGMENT_DIVIDER] (line 101): a float floor-divided by
    whatever the global holds. *)
Definition floordiv_float_pyval (x : Q) (v : pyval) : exn + Q :=
  match v with
  | PyNone => inl TypeError
  | PyStr _ => inl TypeError
  | PyInt z => if Z.eqb z 0 then inl ZeroDivisionError
               else inr (py_floordiv x (inject_Z z))
  end.

(** ** Start label (line 112) *)

(** [f"{z:02d}"]: sign-aware zero padding to a minimum width of two. *)
Definition format_02d (z : Z) : string :=
  if Z.ltb z 0 then py_str_of_int z
  else if Z.ltb z 10 then "0" +:+ py_str_of_int z
  else py_str_of_int z.

Definition start_time_str (start_time : Q) : string :=
  format_02d (py_int (py_floordiv start_time 3600)) +:+ ":" +:+
  format_02d (py_int (py_floordiv (py_mod start_time 3600) 60)) +:+ ":" +:+
  format_02d (py_int (py_mod start_time 60)).

(** ** The environment and the event log *)

Inductive command :=
| FfmpegExtractAudio (input output : string)
| FfmpegToMono (input output : string)
| FfprobeDuration (src : string)
| FfmpegCut (ss src : string) (to : Q) (out : string).

(** What [subprocess.run(..., check=True)] can do. *)
Inductive proc_result :=
| Completed (stdout : string)
| ProcFailed
| ProcNotFound.

Inductive AudioEncoding := LINEAR16 | FLAC | MULAW.

Record RecognitionConfig := {
  encoding : AudioEncoding;
  language_code : string;
  enable_word_time_offsets : bool
}.

(** One long-running recognition: the configuration, the audio URI and
    the timeout given to [operation.result]. *)
Record RecognizeRequest := {
  req_config : RecognitionConfig;
  req_uri : string;
  req_timeout : Z
}.

(** A recognition result, reduced to the transcripts of its alternatives. *)
Record SpeechRecognitionResult := { alternatives : list string }.

Record Env := {
  BUCKET_NAME : pyval;
  SEGMENT_DIVIDER : pyval;
  subprocess_run : command -> proc_result;
  float_of_str : string -> option Q;
  splitext_root : string -> string;
  upload_from_filename : string -> string -> bool;
  os_remove : string -> bool;
  long_running_recognize :
    RecognizeRequest -> exn + list SpeechRecognitionResult
}.

Inductive event :=
| EvRun (c : command)
| EvUpload (bucket filename : string)
| EvRemove (filename : string)
| EvRecognize (r : RecognizeRequest)
| EvPrint (line : string).

(** ** [extract_audio_from_gcs] and [convert_to_mono] *)

Definition extract_audio_from_gcs (env : Env) (filename output_audio : string)
  : bool * list event :=
  let c := FfmpegExtractAudio filename output_audio in
  match subprocess_run env c with
  | Completed _ => (true, [EvRun c])
  | ProcFailed => (false, [EvRun c])
  | ProcNotFound => (false, [EvRun c])
  end.

(** [os.remove(input_file)] after a successful conversion is inside the
    [try]: when it fails, the file being missing, its [FileNotFoundError]
    is caught by the second [except] clause and the function returns
    [False].  The function never raises. *)
Definition convert_to_mono (env : Env) (input_file output_file : string)
  : outcome bool * list event :=
  let c := FfmpegToMono input_file output_file in
  match subprocess_run env c with
  | Completed _ =>
      if os_remove env input_file
      then (Return true, [EvRun c; EvRemove input_file])
      else (Return false, [EvRun c; EvRemove input_file])
  | ProcFailed => (Return false, [EvRun c])
  | ProcNotFound => (Return false, [EvRun c])
  end.

(** ** [split_audio_into_segments] *)

(** Values of [segment_index], [start_time] and [end_time] in one
    iteration of the loop. *)
Record SegmentWindow := {
  index : Z;
  win_start : Q;
  win_end : Q
}.

(** Loop state (lines 107-109), with the windows of the iterations
    completed so far as a ghost field. *)
Record loop_state := {
  segments : list (string * string);
  start_time : Q;
  segment_index : Z;
  windows : list SegmentWindow
}.

Definition segment_filename_of (env : Env) (src_audio_filename : string)
    (segment_index : Z) : string :=
  splitext_root env src_audio_filename +:+ "_" +:+
  py_str_of_int segment_index +:+ ".wav".

Definition output_gcs_uri_of (env : Env) (segment_filename : string) : string :=
  "gs://" +:+ py_str (BUCKET_NAME env) +:+ "/" +:+ segment_filename.

(** Lines 111-154: one pass through the loop body. *)
Definition loop_body (env : Env) (src_audio_filename : string)
    (duration segment_duration : Q) (st : loop_state)
  : outcome loop_state * list event :=
  let end_time := py_min (start_time st + segment_duration)%Q duration in
  let label := start_time_str (start_time st) in
  let segment_filename :=
    segment_filename_of env src_audio_filename (segment_index st) in
  let output_gcs_uri := output_gcs_uri_of env segment_filename in
  let cut := FfmpegCut label src_audio_filename
               (end_time - start_time st)%Q segment_filename in
  match subprocess_run env cut with
  | ProcFailed => (Raise CalledProcessError, [EvRun cut])
  | ProcNotFound => (Raise FileNotFoundError, [EvRun cut])
  | Completed _ =>
      let bucket := py_str (BUCKET_NAME env) in
      if upload_from_filename env bucket segment_filename then
        if os_remove env segment_filename then
          (Return {| segments := segments st ++ [(output_gcs_uri, label)];
                     start_time := end_time;
                     segment_index := segment_index st + 1;
                     windows := windows st ++
                       [{| index := segment_index st;
                           win_start := start_time st;
                           win_end := end_time |}] |},
           [EvRun cut; EvUpload bucket segment_filename;
            EvRemove segment_filename])
        else
          (Raise (SystemExit 1),
           [EvRun cut; EvUpload bucket segment_filename;
            EvRemove segment_filename])
      else
        (Raise (SystemExit 1), [EvRun cut; EvUpload bucket segment_filename])
  end.

(** Lines 110-155: [while start_time < duration]. *)
Fixpoint while_loop (fuel : nat) (env : Env) (src_audio_filename : string)
    (duration segment_duration : Q) (st : loop_state)
  : outcome loop_state * list event :=
  if Qltb (start_time st) duration then
    match fuel with
    | O => (Diverges, [])
    | S fuel' =>
        match loop_body env src_audio_filename duration segment_duration st with
        | (Return st', evs) =>
            let '(r, evs') :=
              while_loop fuel' env src_audio_filename duration
                         segment_duration st' in
            (r, evs ++ evs')
        | (Raise e, evs) => (Raise e, evs)
        | (Diverges, evs) => (Diverges, evs)
        end
    end
  else (Return st, []).

Definition initial_state : loop_state :=
  {| segments := []; start_time := 0; segment_index := 1; windows := [] |}.

(** Lines 82-98: probe the duration and parse it. *)
Definition probe_duration (env : Env) (src_audio_filename : string)
  : outcome Q :=
  match subprocess_run env (FfprobeDuration src_audio_filename) with
  | Completed stdout =>
      match float_of_str env stdout with
      | Some d => Return d
      | None => Raise ValueError
      end
  | ProcFailed => Raise CalledProcessError
  | ProcNotFound => Raise FileNotFoundError
  end.

(** Result of [split_audio_into_segments]: the value of the global
    [segment_duration] when the function is left ([None] while it is
    still unset), the outcome, and the events. *)
Record split_result := {
  segment_duration_global : option Q;
  split_outcome : outcome loop_state;
  split_events : list event
}.

Definition split_audio_into_segments (fuel : nat) (env : Env)
    (src_audio_filename : string) : split_result :=
  let probe := EvRun (FfprobeDuration src_audio_filename) in
  match probe_duration env src_audio_filename with
  | Raise e => {| segment_duration_global := None;
                  split_outcome := Raise e; split_events := [probe] |}
  | Diverges => {| segment_duration_global := None;
                   split_outcome := Diverges; split_events := [probe] |}
  | Return duration =>
      match floordiv_float_pyval duration (SEGMENT_DIVIDER env) with
      | inl e => {| segment_duration_global := None;
                    split_outcome := Raise e; split_events := [probe] |}
      | inr segment_duration =>
          let '(r, evs) :=
            while_loop fuel env src_audio_filename duration
                       segment_duration initial_state in
          {| segment_duration_global := Some segment_duration;
             split_outcome := r; split_events := probe :: evs |}
      end
  end.

(** ** [run_async_transcribe] *)

Definition DEFAULT_SPEECH_TO_TEXT_TIMEOUT : Z := 3600.

Definition transcribe_request (gcs_uri : string) : RecognizeRequest :=
  {| req_config := {| encoding := LINEAR16;
                      language_code := "fr-FR";
                      enable_word_time_offsets := true |};
     req_uri := gcs_uri;
     req_timeout := DEFAULT_SPEECH_TO_TEXT_TIMEOUT |}.

(** What one worker task ends with: an exception, or the pair
    [(resp.results, start_time)]. *)
Definition task_result : Type := exn + (list SpeechRecognitionResult * string).

Definition run_async_transcribe (env : Env) (gcs_uri start_time : string)
  : task_result * list event :=
  let r := transcribe_request gcs_uri in
  (match long_running_recognize env r with
   | inl e => inl e
   | inr results => inr (results, start_time)
   end,
   [EvRecognize r]).

(** ** [asyncio.gather] *)

(** The list of results once every slot is filled. *)
Fixpoint results_of_slots {A : Type} (slots : list (option A))
  : option (list A) :=
  match slots with
  | [] => Some []
  | None :: _ => None
  | Some a :: rest =>
      match results_of_slots rest with
      | Some l => Some (a :: l)
      | None => None
      end
  end.

Record gather_result (A : Type) := {
  gather_outcome : outcome (list A);
  gather_seen : list nat
}.
Arguments gather_outcome {A} g.
Arguments gather_seen {A} g.

(** [tasks] gives what each task ends with, by position; [order] lists
    the positions in the order in which the tasks complete.  A successful
    completion fills the task's slot; the awaiting coroutine is resumed
    with the list of slots when the last one is filled, or with the first
    exception a task ends with.  [gather_seen] lists the completions that
    had happened by then.  Tasks missing from [order] never complete. *)
Fixpoint gather_wait {A : Type} (tasks : list (exn + A))
    (slots : list (option A)) (seen order : list nat) : gather_result A :=
  match results_of_slots slots with
  | Some l => {| gather_outcome := Return l; gather_seen := seen |}
  | None =>
      match order with
      | [] => {| gather_outcome := Diverges; gather_seen := seen |}
      | i :: order' =>
          match tasks !! i with
          | None => gather_wait tasks slots seen order'
          | Some (inl e) =>
              {| gather_outcome := Raise e; gather_seen := seen ++ [i] |}
          | Some (inr a) =>
              gather_wait tasks (<[i := Some a]> slots) (seen ++ [i]) order'
          end
      end
  end.

Definition gather {A : Type} (tasks : list (exn + A)) (order : list nat)
  : gather_result A :=
  gather_wait tasks (replicate (length tasks) None) [] order.

(** ** [transcript_from_local_file] *)

(** Lines 201-202: the inner loop over one task's results. *)
Fixpoint print_transcript (start_time : string)
    (transcript : list SpeechRecognitionResult) : outcome unit * list event :=
  match transcript with
  | [] => (Return tt, [])
  | result :: rest =>
      match alternatives result with
      | [] => (Raise IndexError, [])
      | alt :: _ =>
          let line := start_time +:+ " - " +:+ alt in
          match print_transcript start_time rest with
          | (r, evs) => (r, EvPrint line :: evs)
          end
      end
  end.

(** Lines 200-202: the outer loop over the gathered content. *)
Fixpoint print_content
    (content : list (list SpeechRecognitionResult * string))
  : outcome unit * list event :=
  match content with
  | [] => (Return tt, [])
  | (transcript, start_time) :: rest =>
      match print_transcript start_time transcript with
      | (Return _, evs) =>
          match print_content rest with
          | (r, evs') => (r, evs ++ evs')
          end
      | (Raise e, evs) => (Raise e, evs)
      | (Diverges, evs) => (Diverges, evs)
      end
  end.

(** Lines 194-202: one task per segment, in list order, then the
    gathered results are printed. *)
Record fan_out_result := {
  fan_outcome : outcome unit;
  fan_events : list event;
  fan_seen : list nat
}.

Definition fan_out (env : Env) (order : list nat)
    (segments : list (string * string)) : fan_out_result :=
  let tasks :=
    map (fun segment => run_async_transcribe env segment.1 segment.2)
        segments in
  let started := concat (map snd tasks) in
  let g := gather (map fst tasks) order in
  match gather_outcome g with
  | Return content =>
      match print_content content with
      | (r, evs) => {| fan_outcome := r; fan_events := started ++ evs;
                       fan_seen := gather_seen g |}
      end
  | Raise e => {| fan_outcome := Raise e; fan_events := started;
                  fan_seen := gather_seen g |}
  | Diverges => {| fan_outcome := Diverges; fan_events := started;
                   fan_seen := gather_seen g |}
  end.

Definition transcript_from_local_file (fuel : nat) (env : Env)
    (order : list nat) (filename : string) : fan_out_result :=
  let tmp_audio_file := filename +:+ "-tmp_audio.wav" in
  let converted_audio_file := filename +:+ "-audio.wav" in
  match extract_audio_from_gcs env ("videos/" +:+ filename) tmp_audio_file with
  | (false, evs1) =>
      {| fan_outcome := Raise (SystemExit 1); fan_events := evs1;
         fan_seen := [] |}
  | (true, evs1) =>
      match convert_to_mono env tmp_audio_file converted_audio_file with
      | (Raise e, evs2) =>
          {| fan_outcome := Raise e; fan_events := evs1 ++ evs2;
             fan_seen := [] |}
      | (Diverges, evs2) =>
          {| fan_outcome := Diverges; fan_events := evs1 ++ evs2;
             fan_seen := [] |}
      | (Return _, evs2) =>
          let s := split_audio_into_segments fuel env converted_audio_file in
          let evs3 := split_events s in
          match split_outcome s with
          | Raise e =>
              {| fan_outcome := Raise e; fan_events := evs1 ++ evs2 ++ evs3;
                 fan_seen := [] |}
          | Diverges =>
              {| fan_outcome := Diverges; fan_events := evs1 ++ evs2 ++ evs3;
                 fan_seen := [] |}
          | Return st =>
              let f := fan_out env order (segments st) in
              {| fan_outcome := fan_outcome f;
                 fan_events := evs1 ++ evs2 ++ evs3 ++ fan_events f;
                 fan_seen := fan_seen f |}
          end
      end
  end.

(** The transcript: the lines printed, in order. *)
Definition printed_lines (evs : list event) : list string :=
  omap (fun ev => match ev with EvPrint l => Some l | _ => None end) evs.

(** The recognition requests issued, in order. *)
Definition recognize_requests (evs : list event) : list RecognizeRequest :=
  omap (fun ev => match ev with EvRecognize r => Some r | _ => None end) evs.

(** ** Environments for the examples *)

(** Every external call succeeds; [ffprobe] reports [duration]; the
    recognition service answers through [recognize]. *)
Definition env_ok (divider : pyval) (duration : Q)
    (recognize : RecognizeRequest -> exn + list SpeechRecognitionResult)
  : Env :=
  {| BUCKET_NAME := PyStr "bucket";
     SEGMENT_DIVIDER := divider;
     subprocess_run := fun _ => Completed "";
     float_of_str := fun _ => Some duration;
     splitext_root := fun _ => "audio";
     upload_from_filename := fun _ _ => true;
     os_remove := fun _ => true;
     long_running_recognize := recognize |}.

Definition no_speech (r : RecognizeRequest)
  : exn + list SpeechRecognitionResult := inr [].

(** ** Properties the statements below are phrased with *)

(** The label of a whole number of seconds: hours, minutes and seconds,
    each written with at least two digits. *)
Definition label_of_seconds (t : Z) : string :=
  format_02d (t / 3600) +:+ ":" +:+ format_02d ((t mod 3600) / 60) +:+ ":" +:+
  format_02d (t mod 60).

(** Every cut, upload and removal succeeds. *)
Definition externals_succeed (env : Env) : Prop :=
  (forall c, exists out, subprocess_run env c = Completed out) /\
  (forall b f, upload_from_filename env b f = true) /\
  (forall f, os_remove env f = true).

(** The loop state after one pass of the body in which every external
    call succeeds. *)
Definition next_state (env : Env) (src : string) (duration seg : Q)
    (st : loop_state) : loop_state :=
  let end_time := py_min (start_time st + seg)%Q duration in
  {| segments := segments st ++
       [(output_gcs_uri_of env (segment_filename_of env src (segment_index st)),
         start_time_str (start_time st))];
     start_time := end_time;
     segment_index := segment_index st + 1;
     windows := windows st ++
       [{| index := segment_index st; win_start := start_time st;
           win_end := end_time |}] |}.

(** The windows follow one another from [s] to [e]: each starts where
    the previous one ends. *)
Fixpoint contiguous (s : Q) (ws : list SegmentWindow) (e : Q) : Prop :=
  match ws with
  | [] => (s == e)%Q
  | w :: ws' => (win_start w == s)%Q /\ contiguous (win_end w) ws' e
  end.

Definition window_within (lo hi : Q) (w : SegmentWindow) : Prop :=
  (lo <= win_start w)%Q /\ (win_start w < win_end w)%Q /\ (win_end w <= hi)%Q.

Definition indexed_from (i0 : Z) (ws : list SegmentWindow) : Prop :=
  forall (i : nat) (w : SegmentWindow),
    ws !! i = Some w -> index w = i0 + Z.of_nat i.

Definition in_window (t : Q) (w : SegmentWindow) : Prop :=
  (win_start w <= t)%Q /\ (t < win_end w)%Q.

(** The instant [t] lies in exactly one window of the list. *)
Definition covered_once (ws : list SegmentWindow) (t : Q) : Prop :=
  exists (i : nat) (w : SegmentWindow),
    ws !! i = Some w /\ in_window t w /\
    forall (j : nat) (w' : SegmentWindow),
      ws !! j = Some w' -> in_window t w' -> j = i.

(** The windows partition [[0, duration)]: each lies within it and is not
    empty, they are numbered from 1, they are contiguous from 0 to
    [duration], every instant lies in exactly one of them, and the last
    one ends at [duration]. *)
Definition partitions (duration : Q) (ws : list SegmentWindow) : Prop :=
  Forall (window_within 0 duration) ws /\
  indexed_from 1 ws /\
  contiguous 0 ws duration /\
  (forall t, (0 <= t)%Q -> (t < duration)%Q -> covered_once ws t) /\
  (exists w, last ws = Some w /\ (win_end w == duration)%Q).

(** A transcript fragment: a start label and the phrases recognised for
    one segment. *)
Definition TranscriptFragment : Type := string * list string.

(** Every phrase paired with its fragment's label, fragment after
    fragment. *)
Definition assemble (fragments : list TranscriptFragment)
  : list (string * string) :=
  concat (map (fun f : TranscriptFragment => map (pair f.1) f.2) fragments).

(** How the program writes one [(label, phrase)] pair (line 202). *)
Definition render_line (l : string * string) : string :=
  l.1 +:+ " - " +:+ l.2.

(** A task result carries a fragment: same label, and each phrase is the
    first alternative of the matching recognition result. *)
Definition carries (c : list SpeechRecognitionResult * string)
    (f : TranscriptFragment) : Prop :=
  c.2 = f.1 /\
  Forall2 (fun result phrase => head (alternatives result) = Some phrase)
          c.1 f.2.

(** The worker for [segment] ends with the result [c]. *)
Definition worker_returns (env : Env) (segment : string * string)
    (c : list SpeechRecognitionResult * string) : Prop :=
  long_running_recognize env (transcribe_request segment.1) = inr c.1 /\
  c.2 = segment.2.

(** Slots hold only results of their own task. *)
Definition slots_agree {A : Type} (slots : list (option A))
    (content : list A) : Prop :=
  length slots = length content /\
  forall (i : nat) (a : A),
    slots !! i = Some (Some a) -> content !! i = Some a.


(** The event is a segment cut that [ffmpeg] failed, or a segment upload
    that raised. *)
Definition step_fails (env : Env) (ev : event) : bool :=
  match ev with
  | EvRun (FfmpegCut ss src to out) =>
      match subprocess_run env (FfmpegCut ss src to out) with
      | Completed _ => false
      | _ => true
      end
  | EvUpload bucket filename => negb (upload_from_filename env bucket filename)
  | _ => false
  end.

(** No recognition request and no transcript line among the events. *)
Definition quiet (evs : list event) : Prop :=
  recognize_requests evs = [] /\ printed_lines evs = [].

(** The exceptions with which the segment loop can be left. *)
Definition abort_exn (e : exn) : Prop :=
  e = CalledProcessError \/ e = FileNotFoundError \/ e = SystemExit 1.

(** The fragments of the assembly example and task results that carry
    them. *)
Definition fragments_example : list TranscriptFragment :=
  [("00:00:00", ["a"; "b"]); ("00:01:02", ["c"])]%string.

Definition content_example : list (list SpeechRecognitionResult * string) :=
  [([{| alternatives := ["a"] |}; {| alternatives := ["b"; "be"] |}], "00:00:00");
   ([{| alternatives := ["c"] |}], "00:01:02")]%string.

(** No event of the list is a failed segment step. *)
Definition clean (env : Env) (evs : list event) : Prop :=
  Forall (fun ev => step_fails env ev = false) evs.

(** The coordinator has seen every one of the [n] workers end. *)
Definition waits_for_all (n : nat) (r : fan_out_result) : Prop :=
  forall i : nat, (i < n)%nat -> i ∈ fan_seen r.

(** The segments planned for 125 seconds with divider 2. *)
Definition segments_example : list (string * string) :=
  [("gs://bucket/audio_1.wav", "00:00:00");
   ("gs://bucket/audio_2.wav", "00:01:02");
   ("gs://bucket/audio_3.wav", "00:02:04")]%string.

(** A recognition service that answers every request with one phrase,
    the URI it was asked about. *)
Definition echo_uri (r : RecognizeRequest)
  : exn + list SpeechRecognitionResult :=
  inr [{| alternatives := [req_uri r] |}].

(** The same service, timing out on the listed URIs. *)
Definition timeout_on (uris : list string) (r : RecognizeRequest)
  : exn + list SpeechRecognitionResult :=
  if existsb (String.eqb (req_uri r)) uris then inl TimeoutError
  else echo_uri r.

(** Every external call succeeds except the upload of [filename]. *)
Definition env_upload_fails (filename : string) : Env :=
  {| BUCKET_NAME := PyStr "bucket";
     SEGMENT_DIVIDER := PyInt 2;
     subprocess_run := fun _ => Completed "";
     float_of_str := fun _ => Some 125%Q;
     splitext_root := fun _ => "audio";
     upload_from_filename := fun _ f => negb (String.eqb f filename);
     os_remove := fun _ => true;
     long_running_recognize := echo_uri |}.

(** ** Decimal numerals, read and written digit by digit *)

(** The character of a decimal digit. *)
Definition digit_char (z : Z) : Ascii.ascii :=
  match z with
  | 0 => "0" | 1 => "1" | 2 => "2" | 3 => "3" | 4 => "4"
  | 5 => "5" | 6 => "6" | 7 => "7" | 8 => "8" | 9 => "9"
  | _ => "?"
  end%char.

(** The digit a character stands for. *)
Definition digit_value (c : Ascii.ascii) : option Z :=
  if Ascii.eqb c "0" then Some 0 else if Ascii.eqb c "1" then Some 1
  else if Ascii.eqb c "2" then Some 2 else if Ascii.eqb c "3" then Some 3
  else if Ascii.eqb c "4" then Some 4 else if Ascii.eqb c "5" then Some 5
  else if Ascii.eqb c "6" then Some 6 else if Ascii.eqb c "7" then Some 7
  else if Ascii.eqb c "8" then Some 8 else if Ascii.eqb c "9" then Some 9
  else None.

(** The number a string of decimal digits denotes, most significant
    digit first; [None] for the empty string and for a string with a
    character that is not a digit. *)
Fixpoint decimal_acc (acc : Z) (s : string) : option Z :=
  match s with
  | EmptyString => Some acc
  | String c s' =>
      match digit_value c with
      | Some v => decimal_acc (10 * acc + v) s'
      | None => None
      end
  end.

Definition decimal_value (s : string) : option Z :=
  match s with
  | EmptyString => None
  | _ => decimal_acc 0 s
  end.

(** A number below a hundred written with exactly two digits. *)
Definition two_digits (z : Z) : string :=
  String (digit_char (z / 10)) (String (digit_char (z mod 10)) EmptyString).

(** Zero-padded [HH:MM:SS] of a whole number of seconds below a hundred
    hours. *)
Definition hhmmss (t : Z) : string :=
  two_digits (t / 3600) +:+ ":" +:+ two_digits ((t mod 3600) / 60) +:+ ":" +:+
  two_digits (t mod 60).

(** The string does not start with the digit zero. *)
Definition no_leading_zero (s : string) : Prop :=
  match s with
  | EmptyString => False
  | String c _ => c <> "0"%char
  end.

(** ** The plan the loop follows *)

(** What one completed pass of the loop contributes for the window [w]:
    the segment appended to the result, and the external calls made. *)
Definition segment_of_window (env : Env) (src : string) (w : SegmentWindow)
  : string * string :=
  (output_gcs_uri_of env (segment_filename_of env src (index w)),
   start_time_str (win_start w)).

Definition window_events (env : Env) (src : string) (w : SegmentWindow)
  : list event :=
  [EvRun (FfmpegCut (start_time_str (win_start w)) src
            (win_end w - win_start w)%Q
            (segment_filename_of env src (index w)));
   EvUpload (py_str (BUCKET_NAME env)) (segment_filename_of env src (index w));
   EvRemove (segment_filename_of env src (index w))].

(** The windows [ws] are those of consecutive passes of the loop entered
    with [start_time = s] and [segment_index = i], and the loop is left
    after them with [start_time = s']. *)
Fixpoint greedy (duration seg : Q) (s : Q) (i : Z) (ws : list SegmentWindow)
    (s' : Q) : Prop :=
  match ws with
  | [] => s' = s /\ (duration <= s)%Q
  | w :: ws' =>
      (s < duration)%Q /\
      w = {| index := i; win_start := s;
             win_end := py_min (s + seg)%Q duration |} /\
      greedy duration seg (win_end w) (i + 1) ws' s'
  end.

(** The length of a window. *)
Definition win_length (w : SegmentWindow) : Q := (win_end w - win_start w)%Q.

(** The worker for [segment] ends with the exception [e]. *)
Definition worker_fails (env : Env) (segment : string * string) (e : exn)
  : Prop :=
  long_running_recognize env (transcribe_request segment.1) = inl e.

(** The run from the probe on: what [transcript_from_local_file] does
    once extraction and conversion are behind it (lines 192-202). *)
Definition plan_and_transcribe (fuel : nat) (env : Env) (order : list nat)
    (converted_audio_file : string) : outcome unit * list event :=
  let s := split_audio_into_segments fuel env converted_audio_file in
  match split_outcome s with
  | Return st =>
      let f := fan_out env order (segments st) in
      (fan_outcome f, split_events s ++ fan_events f)
  | Raise e => (Raise e, split_events s)
  | Diverges => (Diverges, split_events s)
  end.

(** Environments in which [ffmpeg] fails on the commands selected by
    [failing] and every other external call succeeds. *)
Definition env_ffmpeg_fails (failing : command -> bool) : Env :=
  {| BUCKET_NAME := PyStr "bucket";
     SEGMENT_DIVIDER := PyInt 2;
     subprocess_run := fun c => if failing c then ProcFailed else Completed "";
     float_of_str := fun _ => Some 125%Q;
     splitext_root := fun _ => "audio";
     upload_from_filename := fun _ _ => true;
     os_remove := fun _ => true;
     long_running_recognize := echo_uri |}.

Definition is_extract (c : command) : bool :=
  match c with FfmpegExtractAudio _ _ => true | _ => false end.

Definition is_mono (c : command) : bool :=
  match c with FfmpegToMono _ _ => true | _ => false end.

(** The final state of the planner for 125 seconds and divider 2. *)
Definition state_example : loop_state :=
  {| segments := segments_example;
     start_time := 125;
     segment_index := 4;
     windows := [ {| index := 1; win_start := 0; win_end := 62 |};
                  {| index := 2; win_start := 62; win_end := 124 |};
                  {| index := 3; win_start := 124; win_end := 125 |} ] |}.




(** * Float arithmetic and the start label *)

Lemma py_int_inject_Z (z : Z) : py_int (inject_Z z) = z.
Proof. unfold py_int; simpl. apply Z.quot_1_r. Qed.

Lemma Qfloor_div_pos (x : Q) (n : positive) :
  Qfloor (x / inject_Z (Z.pos n)) = Qfloor x / Z.pos n.
Proof.
  destruct x as [a b]. unfold Qdiv, Qinv, Qmult, Qfloor; simpl.
  rewrite Z.mul_1_r, Pos2Z.inj_mul. symmetry. apply Z.div_div; lia.
Qed.

Lemma Qfloor_sub_Z (x : Q) (k : Z) :
  Qfloor (x - inject_Z k) = Qfloor x - k.
Proof.
  destruct x as [a b]. unfold Qminus, Qplus, Qopp, Qfloor, inject_Z; simpl.
  rewrite Z.mul_1_r, Pos.mul_1_r.
  replace (a + - k * Z.pos b) with (a + (- k) * Z.pos b) by lia.
  rewrite Z.div_add by lia. lia.
Qed.

Lemma py_int_nonneg (x : Q) : (0 <= x)%Q -> py_int x = Qfloor x.
Proof.
  destruct x as [a b]. unfold Qle, py_int, Qfloor; simpl. intros H.
  apply Z.quot_div_nonneg; lia.
Qed.

Lemma py_floordiv_pos (x : Q) (n : positive) :
  py_floordiv x (inject_Z (Z.pos n)) = inject_Z (Qfloor x / Z.pos n).
Proof. unfold py_floordiv. now rewrite Qfloor_div_pos. Qed.

Lemma Qfloor_py_mod (x : Q) (n : positive) :
  Qfloor (py_mod x (inject_Z (Z.pos n))) = Qfloor x mod Z.pos n.
Proof.
  unfold py_mod. rewrite Qfloor_div_pos.
  rewrite <- inject_Z_mult, Qfloor_sub_Z.
  rewrite Z.mod_eq by lia. reflexivity.
Qed.

Lemma py_mod_nonneg (x : Q) (n : positive) :
  (0 <= py_mod x (inject_Z (Z.pos n)))%Q.
Proof.
  unfold py_mod.
  pose proof (Qfloor_le (x / inject_Z (Z.pos n))) as H.
  assert (Hn : (0 < inject_Z (Z.pos n))%Q) by (unfold Qlt; simpl; lia).
  assert (E : (x == inject_Z (Z.pos n) * (x / inject_Z (Z.pos n)))%Q).
  { field. intros C. rewrite C in Hn. lra. }
  set (f := inject_Z (Qfloor (x / inject_Z (Z.pos n)))) in *.
  set (q := (x / inject_Z (Z.pos n))%Q) in *.
  nra.
Qed.

Lemma start_time_str_floor (start : Q) :
  start_time_str start = label_of_seconds (Qfloor start).
Proof.
  unfold start_time_str, label_of_seconds.
  change 3600%Q with (inject_Z (Z.pos 3600)). change 60%Q with (inject_Z (Z.pos 60)).
  rewrite !py_floordiv_pos, !py_int_inject_Z.
  rewrite (py_int_nonneg _ (py_mod_nonneg start 60)).
  rewrite !Qfloor_py_mod. reflexivity.
Qed.

Lemma format_02d_length (z : Z) :
  0 <= z < 100 -> String.length (format_02d z) = 2%nat.
Proof.
  intros H.
  assert (A : forallb (fun n => Nat.eqb (String.length (format_02d (Z.of_nat n))) 2)
                      (seq 0 100) = true) by (vm_compute; reflexivity).
  rewrite forallb_forall in A.
  specialize (A (Z.to_nat z)).
  rewrite Z2Nat.id in A by lia.
  apply Nat.eqb_eq, A, in_seq. lia.
Qed.

Lemma string_length_app (s1 s2 : string) :
  String.length (s1 +:+ s2) = (String.length s1 + String.length s2)%nat.
Proof. induction s1 as [|c s1 IH]; simpl; [reflexivity | now rewrite IH]. Qed.

Lemma label_of_seconds_length (t : Z) :
  0 <= t < 360000 -> String.length (label_of_seconds t) = 8%nat.
Proof.
  intros H. unfold label_of_seconds.
  assert (Hh : 0 <= t / 3600 < 100)
    by (split; [apply Z.div_pos; lia | apply Z.div_lt_upper_bound; lia]).
  pose proof (Z.mod_pos_bound t 3600 ltac:(lia)) as Hm.
  assert (Hm' : 0 <= (t mod 3600) / 60 < 100)
    by (split; [apply Z.div_pos; lia | apply Z.div_lt_upper_bound; lia]).
  assert (Hs : 0 <= t mod 60 < 100)
    by (pose proof (Z.mod_pos_bound t 60 ltac:(lia)); lia).
  rewrite !string_length_app.
  rewrite (format_02d_length _ Hh), (format_02d_length _ Hm'),
    (format_02d_length _ Hs).
  reflexivity.
Qed.

(** * The planner loop *)

Lemma Qltb_lt (x y : Q) : Qltb x y = true <-> (x < y)%Q.
Proof.
  unfold Qltb. rewrite negb_true_iff, <- not_true_iff_false, Qle_bool_iff.
  split; [apply Qnot_le_lt | apply Qlt_not_le].
Qed.

Lemma Qltb_ge (x y : Q) : Qltb x y = false <-> (y <= x)%Q.
Proof.
  unfold Qltb. rewrite negb_false_iff. apply Qle_bool_iff.
Qed.

Lemma py_min_spec (a b : Q) :
  (b < a /\ py_min a b = b)%Q \/ (a <= b /\ py_min a b = a)%Q.
Proof.
  unfold py_min. destruct (Qltb b a) eqn:E.
  - left. split; [now apply Qltb_lt | reflexivity].
  - right. split; [now apply Qltb_ge | reflexivity].
Qed.

Lemma loop_body_ok env src duration seg st :
  externals_succeed env ->
  exists evs,
    loop_body env src duration seg st =
      (Return (next_state env src duration seg st), evs).
Proof.
  intros (Hrun & Hup & Hrm). unfold loop_body, next_state.
  match goal with |- context [subprocess_run env ?c] =>
    destruct (Hrun c) as [out ->] end.
  rewrite Hup, Hrm. eexists; reflexivity.
Qed.

Lemma inject_Z_of_nat_S (n : nat) :
  (inject_Z (Z.of_nat (S n)) == inject_Z (Z.of_nat n) + 1)%Q.
Proof. rewrite Nat2Z.inj_succ. unfold Z.succ. rewrite inject_Z_plus. reflexivity. Qed.

Lemma while_loop_runs env src duration seg :
  externals_succeed env -> (0 < seg)%Q ->
  forall fuel st,
    (duration - start_time st <= inject_Z (Z.of_nat fuel) * seg)%Q ->
    exists st' evs ws,
      while_loop fuel env src duration seg st = (Return st', evs) /\
      windows st' = windows st ++ ws /\
      map snd (segments st') =
        map snd (segments st) ++
        map (fun w => start_time_str (win_start w)) ws /\
      Forall (window_within (start_time st) duration) ws /\
      indexed_from (segment_index st) ws /\
      contiguous (start_time st) ws (start_time st') /\
      ((start_time st < duration)%Q -> (start_time st' == duration)%Q) /\
      ((duration <= start_time st)%Q -> st' = st).
Proof.
  intros Hext Hseg. induction fuel as [|fuel IH]; intros st Hfuel.
  - assert (Hge : (duration <= start_time st)%Q).
    { change (inject_Z (Z.of_nat 0)) with 0%Q in Hfuel. lra. }
    exists st, [], []. simpl. rewrite (proj2 (Qltb_ge _ _) Hge).
    rewrite !app_nil_r. split_and!; auto.
    + intros i w Hi; discriminate.
    + reflexivity.
    + intros; lra.
  - simpl. destruct (Qltb (start_time st) duration) eqn:Hlt.
    + apply Qltb_lt in Hlt.
      destruct (loop_body_ok env src duration seg st Hext) as [evs0 ->].
      set (st1 := next_state env src duration seg st).
      assert (Hst1 : start_time st1 = py_min (start_time st + seg)%Q duration)
        by reflexivity.
      rewrite inject_Z_of_nat_S in Hfuel.
      assert (Hnext : (start_time st < start_time st1)%Q /\
                      (start_time st1 <= duration)%Q /\
                      (duration - start_time st1 <=
                         inject_Z (Z.of_nat fuel) * seg)%Q).
      { assert (0 <= inject_Z (Z.of_nat fuel))%Q
          by (change 0%Q with (inject_Z 0); rewrite <- Zle_Qle; lia).
        rewrite Hst1.
        destruct (py_min_spec (start_time st + seg)%Q duration)
          as [[Hc ->]|[Hc ->]]; split_and!; try lra; nra. }
      destruct Hnext as (Hlo & Hhi & Hmeasure).
      destruct (IH st1 Hmeasure)
        as (st' & evs & ws & Hrun & Hw & Hs & Hall & Hidx & Hcont & Hend & Hstop).
      rewrite Hrun.
      exists st', (evs0 ++ evs),
        ({| index := segment_index st; win_start := start_time st;
            win_end := start_time st1 |} :: ws).
      split_and!.
      * reflexivity.
      * rewrite Hw. unfold st1; simpl. now rewrite <- app_assoc.
      * rewrite Hs. unfold st1; simpl. rewrite map_app. simpl.
        now rewrite <- app_assoc.
      * constructor.
        -- split_and!; [apply Qle_refl | exact Hlo | exact Hhi].
        -- eapply Forall_impl; [exact Hall|].
           intros w (A & B & C). unfold window_within. split_and!; auto. lra.
      * intros [|i] w Hi; simpl in Hi.
        -- injection Hi as <-. simpl. lia.
        -- rewrite (Hidx i w Hi). unfold st1; simpl. lia.
      * simpl. split; [reflexivity | exact Hcont].
      * intros _. destruct (Qlt_le_dec (start_time st1) duration) as [L|L].
        -- now apply Hend.
        -- rewrite (Hstop L). lra.
      * intros; lra.
    + apply Qltb_ge in Hlt. exists st, [], [].
      rewrite !app_nil_r. split_and!; auto.
      * intros i w Hi; discriminate.
      * simpl. reflexivity.
      * intros; lra.
Qed.

Lemma while_loop_more_fuel env src duration seg :
  forall fuel st st' evs,
    while_loop fuel env src duration seg st = (Return st', evs) ->
    forall fuel', (fuel <= fuel')%nat ->
      while_loop fuel' env src duration seg st = (Return st', evs).
Proof.
  induction fuel as [|fuel IH]; intros st st' evs Hrun fuel' Hle.
  - simpl in Hrun. destruct (Qltb (start_time st) duration) eqn:E;
      [discriminate|].
    destruct fuel'; simpl; rewrite E; exact Hrun.
  - destruct fuel' as [|fuel']; [lia|].
    simpl in Hrun |- *. destruct (Qltb (start_time st) duration); [|exact Hrun].
    destruct (loop_body env src duration seg st) as [[st1| |] evs0];
      try discriminate.
    destruct (while_loop fuel env src duration seg st1) as [r evs1] eqn:E1.
    injection Hrun as -> <-.
    rewrite (IH _ _ _ E1 fuel') by lia. reflexivity.
Qed.

Lemma contiguous_starts_ge ws :
  forall s e, contiguous s ws e ->
    Forall (fun w => (win_start w < win_end w)%Q) ws ->
    (s <= e)%Q /\ Forall (fun w => (s <= win_start w)%Q) ws.
Proof.
  induction ws as [|w ws IH]; intros s e Hc Hne; simpl in Hc.
  - split; [lra | constructor].
  - destruct Hc as [Hs Hc]. inversion Hne as [|? ? Hw Hne']; subst.
    destruct (IH _ _ Hc Hne') as [Hle Hall]. split; [lra|].
    constructor; [lra|].
    eapply Forall_impl; [exact Hall|]. simpl. intros; lra.
Qed.

Lemma contiguous_covered_once ws :
  forall s e, contiguous s ws e ->
    Forall (fun w => (win_start w < win_end w)%Q) ws ->
    forall t, (s <= t)%Q -> (t < e)%Q -> covered_once ws t.
Proof.
  induction ws as [|w ws IH]; intros s e Hc Hne t Hlo Hhi; simpl in Hc.
  - lra.
  - destruct Hc as [Hs Hc]. inversion Hne as [|? ? Hw Hne']; subst.
    destruct (contiguous_starts_ge _ _ _ Hc Hne') as [Hle Hall].
    destruct (Qlt_le_dec t (win_end w)) as [L|L].
    + exists 0%nat, w. split; [reflexivity|]. split; [split; [lra | exact L]|].
      intros [|j] w' Hj [A B]; [reflexivity|]. simpl in Hj.
      rewrite Forall_lookup in Hall. specialize (Hall j w' Hj). simpl in Hall.
      lra.
    + destruct (IH _ _ Hc Hne' t L Hhi) as (i & w0 & Hi & Hin & Huniq).
      exists (S i), w0. split; [exact Hi|]. split; [exact Hin|].
      intros [|j] w' Hj [A B]; simpl in Hj.
      * injection Hj as <-. lra.
      * f_equal. eapply Huniq; [exact Hj | split; assumption].
Qed.

Lemma contiguous_last ws :
  forall s e, contiguous s ws e -> ws <> [] ->
    exists w, last ws = Some w /\ (win_end w == e)%Q.
Proof.
  induction ws as [|w ws IH]; intros s e Hc Hne; [congruence|].
  simpl in Hc. destruct Hc as [_ Hc]. destruct ws as [|w' ws].
  - exists w. simpl in Hc. split; [reflexivity | exact Hc].
  - destruct (IH _ _ Hc ltac:(discriminate)) as (w0 & Hl & He).
    exists w0. split; [exact Hl | exact He].
Qed.

Lemma floordiv_by_int (duration : Q) (d : Z) :
  0 < d ->
  floordiv_float_pyval duration (PyInt d) =
    inr (inject_Z (Qfloor (duration / inject_Z d))).
Proof.
  intros Hd. unfold floordiv_float_pyval, py_floordiv.
  destruct (Z.eqb_spec d 0); [lia | reflexivity].
Qed.


(** * Gathering the workers *)

Section Gather.
Context {A : Type}.
Implicit Types (slots : list (option A)) (tasks : list (exn + A)).

Lemma results_of_slots_Some slots (l : list A) :
  results_of_slots slots = Some l -> slots = map Some l.
Proof.
  revert l. induction slots as [|[a|] slots IH]; intros l H; simpl in H.
  - now injection H as <-.
  - destruct (results_of_slots slots) as [l'|]; [|discriminate].
    injection H as <-. simpl. now rewrite (IH l').
  - discriminate.
Qed.

Lemma results_of_slots_None slots :
  results_of_slots slots = None -> exists i : nat, slots !! i = Some None.
Proof.
  induction slots as [|[a|] slots IH]; intros H; simpl in H.
  - discriminate.
  - destruct (results_of_slots slots); [discriminate|].
    destruct (IH eq_refl) as [i Hi]. now exists (S i).
  - now exists 0%nat.
Qed.

Lemma results_of_slots_pending slots (i : nat) :
  slots !! i = Some None -> results_of_slots slots = None.
Proof.
  revert i. induction slots as [|[a|] slots IH]; intros [|i] H; simpl in *;
    try discriminate; try reflexivity.
  now rewrite (IH i H).
Qed.

Lemma slots_agree_full slots content l :
  slots_agree slots content -> results_of_slots slots = Some l -> l = content.
Proof.
  intros [Hlen Hag] H. apply results_of_slots_Some in H. subst slots.
  rewrite length_map in Hlen.
  apply list_eq_same_length with (length l); [congruence | reflexivity |].
  intros i x y _ Hx Hy.
  specialize (Hag i x). change (map Some l) with (Some <$> l) in Hag.
  rewrite list_lookup_fmap, Hx in Hag.
  specialize (Hag eq_refl). congruence.
Qed.

Lemma gather_wait_all_succeed (content : list A) :
  forall order slots seen,
    slots_agree slots content ->
    (forall i : nat, slots !! i = Some None -> i ∈ order) ->
    gather_outcome (gather_wait (map inr content) slots seen order)
      = Return content.
Proof.
  induction order as [|i order IH]; intros slots seen Hag Hpend; simpl.
  - destruct (results_of_slots slots) as [l|] eqn:E.
    + simpl. f_equal. eapply slots_agree_full; eauto.
    + destruct (results_of_slots_None _ E) as [j Hj].
      specialize (Hpend j Hj). inversion Hpend.
  - destruct (results_of_slots slots) as [l|] eqn:E.
    + simpl. f_equal. eapply slots_agree_full; eauto.
    + change (map inr content) with (@inr exn A <$> content) in *.
      rewrite list_lookup_fmap.
      destruct (content !! i) as [a|] eqn:Hi; simpl.
      * apply IH.
        -- destruct Hag as [Hlen Hag]. split; [now rewrite length_insert|].
           intros j b Hj. destruct (decide (i = j)) as [->|Hne].
           ++ rewrite list_lookup_insert_eq in Hj
                by (rewrite Hlen; eapply lookup_lt_Some; eauto).
              congruence.
           ++ rewrite list_lookup_insert_ne in Hj by exact Hne. now apply Hag.
        -- intros j Hj. destruct (decide (i = j)) as [->|Hne].
           ++ rewrite list_lookup_insert_eq in Hj; [discriminate|].
              destruct Hag as [Hlen _]. rewrite Hlen.
              eapply lookup_lt_Some; eauto.
           ++ rewrite list_lookup_insert_ne in Hj by exact Hne.
              specialize (Hpend j Hj). apply elem_of_cons in Hpend.
              destruct Hpend; [congruence | assumption].
      * apply IH; [exact Hag|].
        intros j Hj. specialize (Hpend j Hj). apply elem_of_cons in Hpend.
        destruct Hpend as [->|]; [|assumption].
        destruct Hag as [Hlen _].
        apply lookup_lt_Some in Hj. apply lookup_ge_None in Hi. lia.
Qed.

Lemma gather_all_succeed (content : list A) (order : list nat) :
  (forall i : nat, (i < length content)%nat -> i ∈ order) ->
  gather_outcome (gather (map inr content) order) = Return content.
Proof.
  intros Hall. unfold gather. apply gather_wait_all_succeed.
  - split; [now rewrite length_replicate, length_map|].
    intros i a Hi. apply lookup_replicate in Hi. destruct Hi; discriminate.
  - intros i Hi. apply lookup_replicate in Hi. apply Hall.
    rewrite length_map in Hi. lia.
Qed.

(** The first failure in completion order ends the wait. *)
Lemma gather_wait_first_failure tasks (i : nat) (e : exn) (post : list nat) :
  tasks !! i = Some (inl e) ->
  forall pre slots seen,
    slots !! i = Some None ->
    Forall (fun j => exists a, tasks !! j = Some (inr a)) pre ->
    gather_wait tasks slots seen (pre ++ i :: post) =
      {| gather_outcome := Raise e; gather_seen := seen ++ pre ++ [i] |}.
Proof.
  intros Hi. induction pre as [|j pre IH]; intros slots seen Hslot Hpre; simpl.
  - rewrite (results_of_slots_pending _ _ Hslot), Hi. reflexivity.
  - rewrite (results_of_slots_pending _ _ Hslot).
    inversion Hpre as [|? ? [a Hj] Hpre']; subst. rewrite Hj.
    rewrite IH; [now rewrite <- app_assoc | | exact Hpre'].
    rewrite list_lookup_insert_ne; [exact Hslot|]. congruence.
Qed.

Lemma gather_first_failure tasks (pre : list nat) (i : nat) (post : list nat)
    (e : exn) :
  tasks !! i = Some (inl e) ->
  Forall (fun j => exists a, tasks !! j = Some (inr a)) pre ->
  gather tasks (pre ++ i :: post) =
    {| gather_outcome := Raise e; gather_seen := pre ++ [i] |}.
Proof.
  intros Hi Hpre. unfold gather.
  rewrite (gather_wait_first_failure tasks i e post Hi pre _ [] ); auto.
  apply lookup_replicate. split; [reflexivity|]. eapply lookup_lt_Some; eauto.
Qed.
End Gather.

(** * Fan-out and fan-in *)

Lemma printed_lines_app (l1 l2 : list event) :
  printed_lines (l1 ++ l2) = printed_lines l1 ++ printed_lines l2.
Proof. apply omap_app. Qed.

Lemma recognize_requests_app (l1 l2 : list event) :
  recognize_requests (l1 ++ l2) = recognize_requests l1 ++ recognize_requests l2.
Proof. apply omap_app. Qed.

Lemma started_events env (segs : list (string * string)) :
  concat (map snd (map (fun segment =>
            run_async_transcribe env segment.1 segment.2) segs)) =
  map (fun segment => EvRecognize (transcribe_request segment.1)) segs.
Proof. induction segs as [|s segs IH]; simpl; [reflexivity | now rewrite IH]. Qed.

Lemma printed_lines_started (segs : list (string * string)) :
  printed_lines
    (map (fun segment => EvRecognize (transcribe_request segment.1)) segs) = [].
Proof. induction segs as [|s segs IH]; simpl; [reflexivity | exact IH]. Qed.

Lemma recognize_requests_started (segs : list (string * string)) :
  recognize_requests
    (map (fun segment => EvRecognize (transcribe_request segment.1)) segs) =
  map (fun segment => transcribe_request segment.1) segs.
Proof.
  induction segs as [|s segs IH]; [reflexivity|].
  simpl. f_equal. exact IH.
Qed.

Lemma task_results_all_return env segs content :
  Forall2 (worker_returns env) segs content ->
  map fst (map (fun segment =>
             run_async_transcribe env segment.1 segment.2) segs) =
  map inr content.
Proof.
  induction 1 as [|s c segs content [Hr Hl] _ IH]; simpl; [reflexivity|].
  rewrite IH, Hr, <- Hl. now destruct c.
Qed.

Lemma fan_out_all_return env order segs content :
  Forall2 (worker_returns env) segs content ->
  (forall i : nat, (i < length segs)%nat -> i ∈ order) ->
  fan_outcome (fan_out env order segs) = (print_content content).1 /\
  fan_events (fan_out env order segs) =
    map (fun segment => EvRecognize (transcribe_request segment.1)) segs ++
    (print_content content).2.
Proof.
  intros Hret Hall. unfold fan_out.
  rewrite (task_results_all_return _ _ _ Hret), started_events.
  rewrite gather_all_succeed.
  - destruct (print_content content) as [r evs]. simpl. split; reflexivity.
  - intros i Hi. apply Hall. now rewrite (Forall2_length _ _ _ Hret).
Qed.


(** * Printing the transcript *)

Lemma print_transcript_phrases (label : string)
    (transcript : list SpeechRecognitionResult) (phrases : list string) :
  Forall2 (fun result phrase => head (alternatives result) = Some phrase)
          transcript phrases ->
  print_transcript label transcript =
    (Return tt, map (fun l => EvPrint (render_line l)) (map (pair label) phrases)).
Proof.
  induction 1 as [|result phrase transcript phrases Hh _ IH]; simpl;
    [reflexivity|].
  destruct (alternatives result) as [|alt others]; [discriminate|].
  simpl in Hh. injection Hh as ->. rewrite IH. reflexivity.
Qed.

Lemma assemble_cons (f : TranscriptFragment) (fragments : list TranscriptFragment) :
  assemble (f :: fragments) = map (pair f.1) f.2 ++ assemble fragments.
Proof. reflexivity. Qed.

Lemma assemble_length (fragments : list TranscriptFragment) :
  length (assemble fragments) =
    sum_list (map (fun f : TranscriptFragment => length f.2) fragments).
Proof.
  induction fragments as [|f fragments IH]; [reflexivity|].
  rewrite assemble_cons, length_app, length_map, IH. reflexivity.
Qed.

Lemma printed_lines_prints (ls : list (string * string)) :
  printed_lines (map (fun l => EvPrint (render_line l)) ls) = map render_line ls.
Proof.
  induction ls as [|l ls IH]; [reflexivity|].
  simpl. f_equal. exact IH.
Qed.

Lemma assemble_example :
  assemble fragments_example =
    [("00:00:00", "a"); ("00:00:00", "b"); ("00:01:02", "c")]%string.
Proof. reflexivity. Qed.


(** * The event log *)

Lemma quiet_app (l1 l2 : list event) : quiet l1 -> quiet l2 -> quiet (l1 ++ l2).
Proof.
  intros [A1 B1] [A2 B2]. unfold quiet, recognize_requests, printed_lines in *.
  rewrite !omap_app, A1, A2, B1, B2. split; reflexivity.
Qed.

Lemma quiet_nil : quiet [].
Proof. split; reflexivity. Qed.

Lemma clean_app env (l1 l2 : list event) :
  clean env l1 -> clean env l2 -> clean env (l1 ++ l2).
Proof. apply Forall_app_2. Qed.

Lemma step_fails_cut env (ss src : string) (to : Q) (out o : string) :
  subprocess_run env (FfmpegCut ss src to out) = Completed o ->
  step_fails env (EvRun (FfmpegCut ss src to out)) = false.
Proof. intros H. simpl. now rewrite H. Qed.

Lemma step_fails_upload env (b f : string) :
  upload_from_filename env b f = true -> step_fails env (EvUpload b f) = false.
Proof. intros H. simpl. now rewrite H. Qed.

Section LoopEvents.
Context (env : Env) (src : string) (duration seg : Q).

Lemma loop_body_events (st : loop_state) :
  quiet (loop_body env src duration seg st).2 /\
  match (loop_body env src duration seg st).1 with
  | Return _ => clean env (loop_body env src duration seg st).2
  | Raise e =>
      abort_exn e /\
      exists init last,
        (loop_body env src duration seg st).2 = init ++ [last] /\
        clean env init
  | Diverges => False
  end.
Proof.
  unfold loop_body.
  destruct (subprocess_run env _) as [out| |] eqn:Hcut; simpl.
  - apply step_fails_cut in Hcut.
    destruct (upload_from_filename env _ _) eqn:Hup; simpl.
    + apply step_fails_upload in Hup.
      destruct (os_remove env _); simpl.
      * split; [split; reflexivity|].
        constructor; [exact Hcut|]. constructor; [exact Hup|].
        constructor; [reflexivity | constructor].
      * split; [split; reflexivity|]. split; [right; right; reflexivity|].
        eexists [_; _], _. split; [reflexivity|].
        constructor; [exact Hcut|]. constructor; [exact Hup | constructor].
    + split; [split; reflexivity|]. split; [right; right; reflexivity|].
      eexists [_], _. split; [reflexivity|].
      constructor; [exact Hcut | constructor].
  - split; [split; reflexivity|]. split; [left; reflexivity|].
    eexists [], _. split; [reflexivity | constructor].
  - split; [split; reflexivity|]. split; [right; left; reflexivity|].
    eexists [], _. split; [reflexivity | constructor].
Qed.

Lemma while_loop_events :
  forall fuel st,
    quiet (while_loop fuel env src duration seg st).2 /\
    match (while_loop fuel env src duration seg st).1 with
    | Raise e =>
        abort_exn e /\
        exists init last,
          (while_loop fuel env src duration seg st).2 = init ++ [last] /\
          clean env init
    | _ => clean env (while_loop fuel env src duration seg st).2
    end.
Proof.
  induction fuel as [|fuel IH]; intros st; simpl.
  - destruct (Qltb (start_time st) duration); simpl;
      (split; [apply quiet_nil | constructor]).
  - destruct (Qltb (start_time st) duration); simpl;
      [|split; [apply quiet_nil | constructor]].
    pose proof (loop_body_events st) as [Hq Hb].
    destruct (loop_body env src duration seg st) as [[st1|e|] evs0];
      simpl in Hq, Hb.
    + specialize (IH st1).
      destruct (while_loop fuel env src duration seg st1) as [r evs1].
      simpl in IH |- *. destruct IH as [Hq1 Hr].
      split; [now apply quiet_app|].
      destruct r as [st2|e|].
      * now apply clean_app.
      * destruct Hr as (Ha & init & last & -> & Hc). split; [exact Ha|].
        exists (evs0 ++ init), last.
        split; [now rewrite app_assoc | now apply clean_app].
      * now apply clean_app.
    + simpl. split; [exact Hq | exact Hb].
    + destruct Hb.
Qed.
End LoopEvents.

Lemma split_events_shape fuel env src :
  let s := split_audio_into_segments fuel env src in
  quiet (split_events s) /\
  match split_outcome s with
  | Raise e =>
      clean env (split_events s) \/
      (abort_exn e /\
       exists init last, split_events s = init ++ [last] /\ clean env init)
  | _ => clean env (split_events s)
  end.
Proof.
  unfold split_audio_into_segments.
  assert (Hp : clean env [EvRun (FfprobeDuration src)]) by (repeat constructor).
  assert (Hq : quiet [EvRun (FfprobeDuration src)]) by (split; reflexivity).
  destruct (probe_duration env src) as [duration|e|]; simpl; auto.
  destruct (floordiv_float_pyval duration (SEGMENT_DIVIDER env)) as [e|seg];
    simpl; auto.
  pose proof (while_loop_events env src duration seg fuel initial_state)
    as [Hq1 Hr].
  destruct (while_loop fuel env src duration seg initial_state) as [r evs].
  simpl in *. split; [apply (quiet_app [_] evs Hq Hq1)|].
  destruct r as [st|e|].
  - apply (clean_app env [_] evs Hp Hr).
  - right. destruct Hr as (Ha & init & last & -> & Hc). split; [exact Ha|].
    exists (EvRun (FfprobeDuration src) :: init), last.
    split; [reflexivity|]. apply (clean_app env [_] init Hp Hc).
  - apply (clean_app env [_] evs Hp Hr).
Qed.

(** * The event log of a whole run *)

Lemma extract_events env (filename output_audio : string) :
  clean env (extract_audio_from_gcs env filename output_audio).2 /\
  quiet (extract_audio_from_gcs env filename output_audio).2.
Proof.
  unfold extract_audio_from_gcs.
  destruct (subprocess_run env _); simpl;
    (split; [repeat constructor | split; reflexivity]).
Qed.

Lemma convert_events env (input_file output_file : string) :
  clean env (convert_to_mono env input_file output_file).2 /\
  quiet (convert_to_mono env input_file output_file).2.
Proof.
  unfold convert_to_mono.
  destruct (subprocess_run env _); [destruct (os_remove env _)| |]; simpl;
    (split; [repeat constructor | split; reflexivity]).
Qed.

Lemma print_transcript_events env (label : string)
    (transcript : list SpeechRecognitionResult) :
  clean env (print_transcript label transcript).2 /\
  recognize_requests (print_transcript label transcript).2 = [].
Proof.
  induction transcript as [|result transcript [IHc IHr]]; simpl.
  - split; [constructor | reflexivity].
  - destruct (alternatives result) as [|alt others]; simpl.
    + split; [constructor | reflexivity].
    + destruct (print_transcript label transcript) as [r evs]. simpl in *.
      split; [constructor; [reflexivity | exact IHc] | exact IHr].
Qed.

Lemma print_content_events env
    (content : list (list SpeechRecognitionResult * string)) :
  clean env (print_content content).2 /\
  recognize_requests (print_content content).2 = [].
Proof.
  induction content as [|[transcript label] content [IHc IHr]]; simpl.
  - split; [constructor | reflexivity].
  - pose proof (print_transcript_events env label transcript) as [Hc Hr].
    destruct (print_transcript label transcript) as [[[]|e|] evs];
      simpl in *; try (split; assumption).
    destruct (print_content content) as [r evs']. simpl in *.
    split; [now apply clean_app|].
    rewrite recognize_requests_app, Hr, IHr. reflexivity.
Qed.

Lemma clean_started env (segs : list (string * string)) :
  clean env (map (fun segment => EvRecognize (transcribe_request segment.1)) segs).
Proof. induction segs; simpl; constructor; [reflexivity | assumption]. Qed.

Lemma fan_out_events env order (segs : list (string * string)) :
  clean env (fan_events (fan_out env order segs)) /\
  recognize_requests (fan_events (fan_out env order segs)) =
    map (fun segment => transcribe_request segment.1) segs.
Proof.
  unfold fan_out. rewrite started_events.
  pose proof (clean_started env segs) as Hc.
  pose proof (recognize_requests_started segs) as Hr.
  destruct (gather_outcome _) as [content|e|]; simpl; auto.
  pose proof (print_content_events env content) as [Hc' Hr'].
  destruct (print_content content) as [r evs]. simpl in *.
  split; [now apply clean_app|].
  rewrite recognize_requests_app, Hr, Hr', app_nil_r. reflexivity.
Qed.

(** A run either logs no failed segment step, or was left at its last
    event before any worker was started. *)
Lemma run_events_shape fuel env order filename :
  let r := transcript_from_local_file fuel env order filename in
  (clean env (fan_events r) /\
   exists segs, recognize_requests (fan_events r) =
                  map (fun segment : string * string =>
                         transcribe_request segment.1) segs) \/
  (exists init last e,
     fan_events r = init ++ [last] /\ clean env init /\
     fan_outcome r = Raise e /\ abort_exn e /\ quiet (fan_events r)).
Proof.
  unfold transcript_from_local_file.
  pose proof (extract_events env ("videos/" +:+ filename)
                (filename +:+ "-tmp_audio.wav")) as [Hc1 Hq1].
  destruct (extract_audio_from_gcs env _ _) as [[|] evs1]; simpl in *;
    [|left; split; [exact Hc1 | exists []; apply Hq1]].
  pose proof (convert_events env (filename +:+ "-tmp_audio.wav")
                (filename +:+ "-audio.wav")) as [Hc2 Hq2].
  destruct (convert_to_mono env _ _) as [[ok|e|] evs2]; simpl in *;
    try (left; split; [now apply clean_app
                      | exists []; now apply (quiet_app evs1 evs2)]).
  pose proof (split_events_shape fuel env (filename +:+ "-audio.wav"))
    as [Hq3 Hs].
  simpl in Hs.
  destruct (split_outcome _) as [st|e|]; simpl.
  - left. pose proof (fan_out_events env order (segments st)) as [Hc4 Hr4].
    split; [repeat apply clean_app; assumption|].
    exists (segments st). rewrite !recognize_requests_app, Hr4.
    destruct Hq1 as [-> _], Hq2 as [-> _], Hq3 as [-> _]. reflexivity.
  - assert (Hq : quiet (evs1 ++ evs2 ++
               split_events (split_audio_into_segments fuel env
                               (filename +:+ "-audio.wav"))))
      by (repeat apply quiet_app; assumption).
    destruct Hs as [Hc3 | (Ha & init & last & E & Hc3)].
    + left. split; [repeat apply clean_app; assumption | exists []; apply Hq].
    + right. exists (evs1 ++ evs2 ++ init), last, e. split_and!; auto.
      * rewrite E, <- !app_assoc. reflexivity.
      * repeat apply clean_app; assumption.
  - left. split; [repeat apply clean_app; assumption|].
    exists []. apply (quiet_app evs1 _ Hq1), (quiet_app evs2 _ Hq2 Hq3).
Qed.

Lemma failed_step_is_last env (init : list event) (last : event)
    (before : list event) (ev : event) (after : list event) :
  init ++ [last] = before ++ ev :: after ->
  clean env init -> step_fails env ev = true -> after = [].
Proof.
  intros E Hc Hf.
  destruct after as [|x after' _] using rev_ind; [reflexivity|].
  exfalso.
  change (before ++ ev :: after' ++ [x]) with (before ++ (ev :: after') ++ [x]) in E.
  rewrite app_assoc in E. apply app_inj_tail in E. destruct E as [-> _].
  unfold clean in Hc. rewrite Forall_app, Forall_cons in Hc.
  destruct Hc as (_ & Hev & _). congruence.
Qed.

(** * Segment lengths that are not positive, and the examples *)

Section Stuck.
Context (env : Env) (src : string) (duration seg : Q).
Hypothesis Hseg : (seg <= 0)%Q.
Hypothesis Hdur : (0 < duration)%Q.

Lemma py_min_stuck (start : Q) :
  (start <= 0)%Q -> py_min (start + seg) duration = (start + seg)%Q.
Proof.
  intros H. destruct (py_min_spec (start + seg)%Q duration) as [[A _]|[_ B]];
    [lra | exact B].
Qed.

(** With a segment length that is not positive the loop is never left
    by [return]. *)
Lemma while_loop_never_returns :
  forall fuel st, (start_time st <= 0)%Q ->
    forall st', (while_loop fuel env src duration seg st).1 <> Return st'.
Proof.
  induction fuel as [|fuel IH]; intros st Hst st'; simpl.
  - rewrite (proj2 (Qltb_lt _ _)) by lra. discriminate.
  - rewrite (proj2 (Qltb_lt _ _)) by lra.
    destruct (loop_body env src duration seg st) as [[st1|e|] evs0] eqn:E;
      simpl; try discriminate.
    assert (Hst1 : (start_time st1 <= 0)%Q).
    { unfold loop_body in E.
      destruct (subprocess_run env _); try discriminate.
      destruct (upload_from_filename env _ _); try discriminate.
      destruct (os_remove env _); try discriminate.
      injection E as <- _. simpl. rewrite (py_min_stuck _ Hst). lra. }
    specialize (IH st1 Hst1 st').
    destruct (while_loop fuel env src duration seg st1) as [r evs1].
    exact IH.
Qed.

(** When every external call succeeds it runs for as long as it is
    given fuel, three events to the pass. *)
Lemma while_loop_stuck :
  externals_succeed env ->
  forall fuel st, (start_time st <= 0)%Q ->
    exists evs,
      while_loop fuel env src duration seg st = (Diverges, evs) /\
      length evs = (3 * fuel)%nat.
Proof.
  intros Hext. induction fuel as [|fuel IH]; intros st Hst; simpl.
  - rewrite (proj2 (Qltb_lt _ _)) by lra. now exists [].
  - rewrite (proj2 (Qltb_lt _ _)) by lra.
    assert (Hbody : exists evs0,
               loop_body env src duration seg st =
                 (Return (next_state env src duration seg st), evs0) /\
               length evs0 = 3%nat).
    { destruct Hext as (Hrun & Hup & Hrm). unfold loop_body, next_state.
      match goal with |- context [subprocess_run env ?c] =>
        destruct (Hrun c) as [out ->] end.
      rewrite Hup, Hrm. eexists; split; reflexivity. }
    destruct Hbody as (evs0 & -> & Hlen).
    destruct (IH (next_state env src duration seg st)) as (evs & -> & Hlen').
    { simpl. rewrite (py_min_stuck _ Hst). lra. }
    exists (evs0 ++ evs). split; [reflexivity|].
    rewrite length_app. lia.
Qed.
End Stuck.

Lemma while_loop_not_entered env src duration seg fuel st :
  (duration <= start_time st)%Q ->
  while_loop fuel env src duration seg st = (Return st, []).
Proof.
  intros H. destruct fuel; simpl; now rewrite (proj2 (Qltb_ge _ _) H).
Qed.

Lemma env_ok_externals_succeed divider duration recognize :
  externals_succeed (env_ok divider duration recognize).
Proof.
  split; [intros c; now exists ""%string | split; reflexivity].
Qed.

(** With a number for [SEGMENT_DIVIDER] the global [segment_duration]
    is the floor of the quotient. *)
Lemma segment_duration_is_floor fuel env src duration d :
  probe_duration env src = Return duration ->
  SEGMENT_DIVIDER env = PyInt d -> d <> 0 ->
  segment_duration_global (split_audio_into_segments fuel env src) =
    Some (inject_Z (Qfloor (duration / inject_Z d))).
Proof.
  intros Hp Hd Hnz. unfold split_audio_into_segments. rewrite Hp, Hd. simpl.
  destruct (Z.eqb_spec d 0); [contradiction|].
  destruct (while_loop _ _ _ _ _ _). reflexivity.
Qed.

(** With a positive duration and an integer divider whose quotient has
    no positive floor, the function is never left by [return], whatever
    the external calls do. *)
Lemma nonpositive_segment_length_never_returns fuel env src duration d :
  probe_duration env src = Return duration ->
  SEGMENT_DIVIDER env = PyInt d -> d <> 0 ->
  (0 < duration)%Q -> Qfloor (duration / inject_Z d) <= 0 ->
  forall st,
    split_outcome (split_audio_into_segments fuel env src) <> Return st.
Proof.
  intros Hp Hd Hnz Hdur Hk st. unfold split_audio_into_segments.
  rewrite Hp, Hd. simpl. destruct (Z.eqb_spec d 0); [contradiction|].
  assert (Hseg : (py_floordiv duration (inject_Z d) <= 0)%Q).
  { unfold py_floordiv. change 0%Q with (inject_Z 0). now rewrite <- Zle_Qle. }
  pose proof (while_loop_never_returns env src duration _ Hseg Hdur fuel
                initial_state (Qle_refl 0) st) as H.
  destruct (while_loop _ _ _ _ _ _) as [r evs]. exact H.
Qed.

(** 125 seconds and the number 2: segment length 62, three windows, the
    last one short. *)
Lemma planner_example_125_2 :
  let s := split_audio_into_segments 3 (env_ok (PyInt 2) 125 no_speech)
             "audio.wav" in
  segment_duration_global s = Some 62%Q /\
  split_outcome s =
    Return {| segments := segments_example;
              start_time := 125;
              segment_index := 4;
              windows := [ {| index := 1; win_start := 0; win_end := 62 |};
                           {| index := 2; win_start := 62; win_end := 124 |};
                           {| index := 3; win_start := 124; win_end := 125 |} ] |}.
Proof. split; reflexivity. Qed.

(** * What [:02d] writes *)

Lemma format_02d_two_digits (z : Z) :
  0 <= z < 100 -> format_02d z = two_digits z.
Proof.
  intros H.
  assert (A : forallb (fun n => String.eqb (format_02d (Z.of_nat n))
                                           (two_digits (Z.of_nat n)))
                      (seq 0 100) = true) by (vm_compute; reflexivity).
  rewrite forallb_forall in A.
  specialize (A (Z.to_nat z) ltac:(apply in_seq; lia)).
  rewrite Z2Nat.id in A by lia. now apply String.eqb_eq.
Qed.

Lemma decimal_acc_of_uint_acc (d : Decimal.uint) :
  forall acc : positive,
    decimal_acc (Z.pos acc) (NilEmpty.string_of_uint d) =
      Some (Z.pos (Pos.of_uint_acc d acc)).
Proof.
  induction d; intros acc; simpl; try reflexivity; rewrite <- IHd;
    f_equal; lia.
Qed.

Lemma decimal_acc_of_uint (d : Decimal.uint) :
  decimal_acc 0 (NilEmpty.string_of_uint d) = Some (Z.of_N (Pos.of_uint d)).
Proof.
  induction d; simpl; try reflexivity; try exact IHd;
    apply (decimal_acc_of_uint_acc d).
Qed.

(** Reading the decimal text of a number that is not negative gives the
    number back. *)
Lemma decimal_value_py_str_of_int (z : Z) :
  0 <= z -> decimal_value (py_str_of_int z) = Some z.
Proof.
  intros Hz. destruct z as [|p|p]; [reflexivity | | lia].
  unfold py_str_of_int. simpl.
  pose proof (DecimalPos.Unsigned.to_uint_nonnil p) as Hnn.
  pose proof (decimal_acc_of_uint (Pos.to_uint p)) as H.
  rewrite DecimalPos.Unsigned.of_to in H. simpl in H.
  unfold NilZero.string_of_uint.
  destruct (Pos.to_uint p) eqn:E; try contradiction; exact H.
Qed.

Lemma nzhead_not_D0 (d l : Decimal.uint) : Decimal.nzhead d <> Decimal.D0 l.
Proof. induction d; simpl; try discriminate. exact IHd. Qed.

Lemma to_uint_not_D0 (p : positive) (l : Decimal.uint) :
  Pos.to_uint p <> Decimal.D0 l.
Proof.
  intros E.
  pose proof (DecimalPos.Unsigned.to_of (Pos.to_uint p)) as H.
  rewrite DecimalPos.Unsigned.of_to in H. simpl in H.
  rewrite E in H. unfold Decimal.unorm in H.
  destruct (Decimal.nzhead (Decimal.D0 l)) eqn:En; try discriminate.
  - rewrite H in E. exact (DecimalPos.Unsigned.to_uint_nonzero p E).
  - exact (nzhead_not_D0 _ _ En).
Qed.

Lemma py_str_of_int_no_leading_zero (z : Z) :
  0 < z -> no_leading_zero (py_str_of_int z).
Proof.
  intros Hz. destruct z as [|p|p]; try lia.
  unfold py_str_of_int. simpl. unfold NilZero.string_of_uint.
  pose proof (DecimalPos.Unsigned.to_uint_nonnil p) as Hnn.
  pose proof (to_uint_not_D0 p) as Hnz.
  destruct (Pos.to_uint p) eqn:E; simpl; try discriminate.
  - contradiction.
  - exfalso. exact (Hnz _ eq_refl).
Qed.

Lemma digit_value_bound (c : Ascii.ascii) (v : Z) :
  digit_value c = Some v -> 0 <= v <= 9.
Proof.
  unfold digit_value.
  repeat (destruct (Ascii.eqb c _); [intros [= <-]; lia|]). discriminate.
Qed.

(** What [:02d] writes for a number that is not negative: a decimal
    numeral of that number, of two digits at least, of exactly two
    below a hundred and without a leading zero from a hundred on. *)
Lemma format_02d_spec (z : Z) :
  0 <= z ->
  decimal_value (format_02d z) = Some z /\
  (2 <= String.length (format_02d z))%nat /\
  (z < 100 -> format_02d z = two_digits z) /\
  (100 <= z -> no_leading_zero (format_02d z)).
Proof.
  intros Hz.
  assert (Hval : decimal_value (format_02d z) = Some z).
  { unfold format_02d. destruct (Z.ltb_spec z 0); [lia|].
    destruct (Z.ltb_spec z 10); [|now apply decimal_value_py_str_of_int].
    pose proof (decimal_value_py_str_of_int z Hz) as H'.
    destruct (py_str_of_int z) eqn:E; [discriminate|]. exact H'. }
  split; [exact Hval|]. split; [|split].
  - destruct (Z.lt_ge_cases z 100) as [Hlt|Hge].
    + rewrite format_02d_length by lia. lia.
    + destruct (format_02d z) as [|c [|c' s]] eqn:E; simpl in *;
        [discriminate | | lia].
      destruct (digit_value c) as [v|] eqn:Ev; [|discriminate].
      apply digit_value_bound in Ev. injection Hval as <-. lia.
  - intros Hlt. apply format_02d_two_digits. lia.
  - intros Hge. unfold format_02d. destruct (Z.ltb_spec z 0); [lia|].
    destruct (Z.ltb_spec z 10); [lia|].
    apply py_str_of_int_no_leading_zero. lia.
Qed.

(** * The claims *)

(** C1.  When every worker returns, the results reach the final loop in
    the order of the segment list, whatever the order in which the
    workers complete: the result at position [i] is that of segment [i],
    and outcome, events and printed transcript are those of the run in
    which the workers complete in list order. *)
Theorem fan_out_ascending_order env segs content order :
  Forall2 (worker_returns env) segs content ->
  order ≡ₚ seq 0 (length segs) ->
  (forall (i : nat) (segment : string * string),
     segs !! i = Some segment ->
     exists c, content !! i = Some c /\ worker_returns env segment c) /\
  fan_outcome (fan_out env order segs) = (print_content content).1 /\
  printed_lines (fan_events (fan_out env order segs)) =
    printed_lines (print_content content).2 /\
  fan_events (fan_out env order segs) =
    fan_events (fan_out env (seq 0 (length segs)) segs).
Proof.
  intros Hret Hperm.
  assert (Hall : forall i : nat, (i < length segs)%nat -> i ∈ order).
  { intros i Hi. rewrite Hperm. apply elem_of_seq. lia. }
  assert (Hall' : forall i : nat,
             (i < length segs)%nat -> i ∈ seq 0 (length segs)).
  { intros i Hi. apply elem_of_seq. lia. }
  destruct (fan_out_all_return env order segs content Hret Hall) as [Ho He].
  destruct (fan_out_all_return env _ segs content Hret Hall') as [_ He'].
  split_and!.
  - intros i segment Hi.
    destruct (Forall2_lookup_l _ _ _ _ _ Hret Hi) as (c & Hc & Hw).
    now exists c.
  - exact Ho.
  - rewrite He, printed_lines_app, printed_lines_started. reflexivity.
  - now rewrite He, He'.
Qed.

Lemma fan_out_ascending_order_witness :
  Forall2 (worker_returns (env_ok (PyInt 2) 125 echo_uri)) segments_example
    [([{| alternatives := ["gs://bucket/audio_1.wav"] |}], "00:00:00");
     ([{| alternatives := ["gs://bucket/audio_2.wav"] |}], "00:01:02");
     ([{| alternatives := ["gs://bucket/audio_3.wav"] |}], "00:02:04")]%string /\
  [2; 1; 0]%nat ≡ₚ seq 0 (length segments_example) /\
  printed_lines
    (fan_events (fan_out (env_ok (PyInt 2) 125 echo_uri) [2; 1; 0]%nat
                         segments_example)) =
    ["00:00:00 - gs://bucket/audio_1.wav";
     "00:01:02 - gs://bucket/audio_2.wav";
     "00:02:04 - gs://bucket/audio_3.wav"]%string.
Proof.
  assert (Hret : Forall2 (worker_returns (env_ok (PyInt 2) 125 echo_uri))
            segments_example
            [([{| alternatives := ["gs://bucket/audio_1.wav"] |}], "00:00:00");
             ([{| alternatives := ["gs://bucket/audio_2.wav"] |}], "00:01:02");
             ([{| alternatives := ["gs://bucket/audio_3.wav"] |}], "00:02:04")]%string).
  { repeat constructor. }
  assert (Hperm : [2; 1; 0]%nat ≡ₚ seq 0 (length segments_example)).
  { symmetry. apply (Permutation_rev [0; 1; 2]%nat). }
  split; [exact Hret|]. split; [exact Hperm|].
  destruct (fan_out_ascending_order _ _ _ _ Hret Hperm) as (_ & _ & E & _).
  rewrite E. reflexivity.
Defined.

(** C2, as stated, fails.  Three workers, the second one timing out and
    ending first: the run is left with that worker's own exception while
    the other two have not ended, and the result is the same when the
    third worker times out as well, so it does not tell which workers
    failed. *)
Lemma fan_out_does_not_wait_for_all :
  let r := fan_out (env_ok (PyInt 2) 125
                      (timeout_on ["gs://bucket/audio_2.wav"]%string))
                   [1; 0; 2]%nat segments_example in
  fan_outcome r = Raise TimeoutError /\
  fan_seen r = [1%nat] /\
  ~ waits_for_all 3 r /\
  fan_out (env_ok (PyInt 2) 125
             (timeout_on ["gs://bucket/audio_2.wav";
                          "gs://bucket/audio_3.wav"]%string))
          [1; 0; 2]%nat segments_example = r.
Proof.
  split_and!; try reflexivity.
  intros H. specialize (H 0%nat ltac:(lia)). simpl in H.
  apply list_elem_of_singleton in H. discriminate.
Qed.

(** C2, amended.  When a worker fails, and the workers that ended before
    it all returned, the run is left with that worker's exception as soon
    as it ends: the workers that have not ended are not waited for, every
    request had been issued, and no transcript line is printed. *)
Theorem fan_out_first_failure env segs pre i post segment e :
  segs !! i = Some segment ->
  long_running_recognize env (transcribe_request segment.1) = inl e ->
  Forall (fun j : nat => exists s c, segs !! j = Some s /\ worker_returns env s c)
         pre ->
  fan_outcome (fan_out env (pre ++ i :: post) segs) = Raise e /\
  fan_seen (fan_out env (pre ++ i :: post) segs) = pre ++ [i] /\
  printed_lines (fan_events (fan_out env (pre ++ i :: post) segs)) = [] /\
  recognize_requests (fan_events (fan_out env (pre ++ i :: post) segs)) =
    map (fun s => transcribe_request s.1) segs.
Proof.
  intros Hi He Hpre. unfold fan_out.
  rewrite started_events.
  rewrite (gather_first_failure _ pre i post e).
  - simpl. split_and!; try reflexivity.
    + apply printed_lines_started.
    + apply recognize_requests_started.
  - change (map fst (map (fun segment => run_async_transcribe env segment.1 segment.2) segs))
      with (fst <$> ((fun segment => run_async_transcribe env segment.1 segment.2) <$> segs)).
    rewrite !list_lookup_fmap, Hi. simpl. now rewrite He.
  - eapply Forall_impl; [exact Hpre|]. intros j (s & c & Hj & Hr & Hl).
    exists c.
    change (map fst (map (fun segment => run_async_transcribe env segment.1 segment.2) segs))
      with (fst <$> ((fun segment => run_async_transcribe env segment.1 segment.2) <$> segs)).
    rewrite !list_lookup_fmap, Hj. simpl. rewrite Hr, <- Hl. now destruct c.
Qed.

Lemma fan_out_first_failure_witness :
  segments_example !! 1%nat = Some ("gs://bucket/audio_2.wav", "00:01:02")%string /\
  long_running_recognize
    (env_ok (PyInt 2) 125 (timeout_on ["gs://bucket/audio_2.wav"]%string))
    (transcribe_request "gs://bucket/audio_2.wav") = inl TimeoutError /\
  fan_outcome
    (fan_out (env_ok (PyInt 2) 125
                (timeout_on ["gs://bucket/audio_2.wav"]%string))
             ([0%nat] ++ 1%nat :: [2%nat]) segments_example) =
    Raise TimeoutError /\
  fan_seen
    (fan_out (env_ok (PyInt 2) 125
                (timeout_on ["gs://bucket/audio_2.wav"]%string))
             ([0%nat] ++ 1%nat :: [2%nat]) segments_example) = [0; 1]%nat.
Proof.
  split; [reflexivity|]. split; [reflexivity|].
  destruct (fan_out_first_failure
              (env_ok (PyInt 2) 125
                 (timeout_on ["gs://bucket/audio_2.wav"]%string))
              segments_example [0%nat] 1%nat [2%nat]
              ("gs://bucket/audio_2.wav", "00:01:02")%string TimeoutError)
    as (Ho & Hs & _).
  - reflexivity.
  - reflexivity.
  - constructor; [|constructor].
    exists ("gs://bucket/audio_1.wav", "00:00:00")%string,
           ([{| alternatives := ["gs://bucket/audio_1.wav"%string] |}],
            "00:00:00"%string).
    split; [reflexivity | split; reflexivity].
  - split; [exact Ho | exact Hs].
Defined.

(** C3.  For a positive duration and a positive integer divider whose
    quotient has a positive floor, and external calls that succeed, the
    loop ends for every sufficient amount of fuel with the same state;
    its windows satisfy [0 <= start < end <= duration], are numbered
    from 1, are contiguous from 0 to [duration], cover every instant of
    [[0, duration)] exactly once, and the last one ends at [duration];
    the labels returned are those of the window starts. *)
Theorem planner_windows_partition env src duration d :
  externals_succeed env ->
  probe_duration env src = Return duration ->
  SEGMENT_DIVIDER env = PyInt d ->
  (0 < duration)%Q -> 0 < d -> 0 < Qfloor (duration / inject_Z d) ->
  exists (n : nat) (st : loop_state),
    (forall fuel, (n <= fuel)%nat ->
       split_outcome (split_audio_into_segments fuel env src) = Return st) /\
    partitions duration (windows st) /\
    map snd (segments st) =
      map (fun w => start_time_str (win_start w)) (windows st).
Proof.
  intros Hext Hprobe Hdiv Hdur Hd Hk.
  set (seg := inject_Z (Qfloor (duration / inject_Z d))).
  assert (Hseg : (1 <= seg)%Q).
  { unfold seg. change 1%Q with (inject_Z 1). rewrite <- Zle_Qle. lia. }
  set (n := Z.to_nat (Qceiling duration)).
  assert (Hn : (duration <= inject_Z (Z.of_nat n))%Q).
  { unfold n. pose proof (Qle_ceiling duration) as Hc.
    assert (0 <= Qceiling duration).
    { rewrite Zle_Qle. change (inject_Z 0) with 0%Q. lra. }
    rewrite Z2Nat.id by lia. exact Hc. }
  destruct (while_loop_runs env src duration seg Hext ltac:(lra) n initial_state)
    as (st & evs & ws & Hrun & Hw & Hs & Hall & Hidx & Hcont & Hend & _).
  { simpl. nra. }
  simpl in Hw, Hs, Hall, Hidx, Hcont, Hend. subst ws.
  assert (Hcont' : contiguous 0 (windows st) duration).
  { specialize (Hend Hdur). clear -Hcont Hend.
    revert Hcont. generalize 0%Q. induction (windows st) as [|w ws IH]; simpl.
    - intros q Hq. lra.
    - intros q [A B]. split; [exact A | now apply IH]. }
  assert (Hne : Forall (fun w => (win_start w < win_end w)%Q) (windows st)).
  { eapply Forall_impl; [exact Hall|]. intros w (_ & B & _). exact B. }
  exists n, st. split_and!.
  - intros fuel Hfuel. unfold split_audio_into_segments.
    rewrite Hprobe, Hdiv, (floordiv_by_int _ _ Hd). fold seg.
    rewrite (while_loop_more_fuel _ _ _ _ _ _ _ _ Hrun fuel Hfuel).
    reflexivity.
  - split_and!; auto.
    + intros t Ht0 Ht1. eapply contiguous_covered_once; eauto.
    + eapply contiguous_last; [exact Hcont'|].
      intros E. rewrite E in Hcont'. simpl in Hcont'. lra.
  - exact Hs.
Qed.

Lemma planner_windows_partition_witness :
  externals_succeed (env_ok (PyInt 2) 125 no_speech) /\
  probe_duration (env_ok (PyInt 2) 125 no_speech) "audio.wav" = Return 125%Q /\
  SEGMENT_DIVIDER (env_ok (PyInt 2) 125 no_speech) = PyInt 2 /\
  (0 < 125)%Q /\ 0 < 2 /\ 0 < Qfloor (125 / inject_Z 2) /\
  exists (n : nat) (st : loop_state),
    (forall fuel, (n <= fuel)%nat ->
       split_outcome
         (split_audio_into_segments fuel (env_ok (PyInt 2) 125 no_speech)
            "audio.wav") = Return st) /\
    partitions 125 (windows st) /\
    map snd (segments st) =
      map (fun w => start_time_str (win_start w)) (windows st).
Proof.
  assert (Hext : externals_succeed (env_ok (PyInt 2) 125 no_speech)).
  { split; [intros c; exists ""%string; reflexivity | split; reflexivity]. }
  assert (Hdur : (0 < 125)%Q) by (unfold Qlt; simpl; lia).
  assert (Hk : 0 < Qfloor (125 / inject_Z 2)) by (vm_compute; reflexivity).
  split_and!; try assumption; try reflexivity; try lia.
  apply (planner_windows_partition (env_ok (PyInt 2) 125 no_speech)
           "audio.wav" 125 2 Hext eq_refl eq_refl Hdur ltac:(lia) Hk).
Defined.

(** C4.  With [SEGMENT_DIVIDER] as [os.getenv] binds it, the text "2",
    and a duration of 125 seconds, line 101 raises [TypeError]: no
    segment length is set, and nothing is cut. *)
Theorem configured_divider_raises_type_error (fuel : nat) :
  let s := split_audio_into_segments fuel
             (env_ok (os_getenv (Some "2"%string)) 125 no_speech)
             "audio.wav" in
  split_outcome s = Raise TypeError /\
  segment_duration_global s = None /\
  split_events s = [EvRun (FfprobeDuration "audio.wav")].
Proof. split_and!; reflexivity. Qed.

(** C5.  Five seconds and the divider 100: the segment length is 0, and
    with external calls that succeed the loop is never left; it cuts and
    uploads one more empty segment for every unit of fuel it is given. *)
Theorem degenerate_segmentation_never_ends (fuel : nat) :
  let s := split_audio_into_segments fuel (env_ok (PyInt 100) 5 no_speech)
             "audio.wav" in
  segment_duration_global s = Some 0%Q /\
  split_outcome s = Diverges /\
  length (split_events s) = (1 + 3 * fuel)%nat.
Proof.
  assert (Hseg : (0 <= 0)%Q) by apply Qle_refl.
  assert (Hdur : (0 < 5)%Q) by (unfold Qlt; simpl; lia).
  destruct (while_loop_stuck (env_ok (PyInt 100) 5 no_speech) "audio.wav"
              5 0 Hseg Hdur (env_ok_externals_succeed _ _ _) fuel
              initial_state Hseg) as (evs & E & Hlen).
  unfold split_audio_into_segments. simpl.
  change (py_floordiv 5 (inject_Z 100)) with 0%Q.
  rewrite E. simpl. rewrite Hlen. split_and!; reflexivity.
Qed.

(** C6, as stated, fails.  A duration of 0 with the divider 2 is not an
    error: the function returns an empty list; and the divider 0 raises
    [ZeroDivisionError]. *)
Lemma zero_duration_is_not_an_error :
  split_outcome
    (split_audio_into_segments 0 (env_ok (PyInt 2) 0 no_speech) "audio.wav")
    = Return initial_state /\
  split_outcome
    (split_audio_into_segments 0 (env_ok (PyInt 0) 125 no_speech) "audio.wav")
    = Raise ZeroDivisionError.
Proof. split; reflexivity. Qed.

(** C6, amended.  With an integer divider: the divider 0 raises
    [ZeroDivisionError]; any other divider with a duration that is not
    positive returns the empty list of segments.  In both cases nothing
    is cut or uploaded. *)
Theorem invalid_configuration_outcome (fuel : nat) (env : Env)
    (src : string) (duration : Q) (d : Z) :
  probe_duration env src = Return duration ->
  SEGMENT_DIVIDER env = PyInt d ->
  d = 0 \/ (duration <= 0)%Q ->
  split_outcome (split_audio_into_segments fuel env src) =
    (if Z.eqb d 0 then Raise ZeroDivisionError else Return initial_state) /\
  split_events (split_audio_into_segments fuel env src) =
    [EvRun (FfprobeDuration src)].
Proof.
  intros Hp Hd Hcase. unfold split_audio_into_segments. rewrite Hp, Hd. simpl.
  destruct (Z.eqb_spec d 0) as [->|Hnz]; [split; reflexivity|].
  destruct Hcase as [->|Hle]; [contradiction|].
  rewrite while_loop_not_entered by exact Hle. split; reflexivity.
Qed.

Lemma invalid_configuration_outcome_witness :
  probe_duration (env_ok (PyInt 2) 0 no_speech) "audio.wav" = Return 0%Q /\
  SEGMENT_DIVIDER (env_ok (PyInt 2) 0 no_speech) = PyInt 2 /\
  (2 = 0 \/ (0 <= 0)%Q) /\
  split_outcome
    (split_audio_into_segments 7 (env_ok (PyInt 2) 0 no_speech) "audio.wav") =
    Return initial_state /\
  split_events
    (split_audio_into_segments 7 (env_ok (PyInt 2) 0 no_speech) "audio.wav") =
    [EvRun (FfprobeDuration "audio.wav")].
Proof.
  assert (Hcase : 2 = 0 \/ (0 <= 0)%Q) by (right; unfold Qle; simpl; lia).
  split; [reflexivity|]. split; [reflexivity|]. split; [exact Hcase|].
  apply (invalid_configuration_outcome 7 (env_ok (PyInt 2) 0 no_speech)
           "audio.wav" 0 2 eq_refl eq_refl Hcase).
Defined.

(** C7.  For a start time that is not negative the label is that of the
    whole seconds obtained by truncation, not rounding: three decimal
    fields separated by colons, the hours, then the minutes and the
    seconds each as exactly two digits; the hours field is a decimal
    numeral of the hours of two digits at least, exactly two, padded
    with a zero, below a hundred hours (the label is then the
    eight-character zero-padded HH:MM:SS) and without a leading zero
    from a hundred hours on; 3661.0 seconds give "01:01:01". *)
Theorem start_label_truncates_to_hhmmss (start : Q) :
  (0 <= start)%Q ->
  py_int start = Qfloor start /\
  (inject_Z (py_int start) <= start)%Q /\
  (start < inject_Z (py_int start) + 1)%Q /\
  start_time_str start = label_of_seconds (py_int start) /\
  (py_int start < 360000 -> String.length (start_time_str start) = 8%nat) /\
  (py_int start < 360000 -> start_time_str start = hhmmss (py_int start)) /\
  (exists hh : string,
     start_time_str start =
       hh +:+ ":" +:+ two_digits ((py_int start mod 3600) / 60) +:+ ":" +:+
       two_digits (py_int start mod 60) /\
     decimal_value hh = Some (py_int start / 3600) /\
     (2 <= String.length hh)%nat /\
     (360000 <= py_int start -> no_leading_zero hh)) /\
  start_time_str 3661 = "01:01:01"%string.
Proof.
  intros H. rewrite (py_int_nonneg start H).
  pose proof (Qfloor_le start) as Hlo. pose proof (Qlt_floor start) as Hhi.
  rewrite inject_Z_plus in Hhi.
  assert (Hnn : 0 <= Qfloor start).
  { rewrite <- (py_int_nonneg start H).
    destruct start as [a b]. unfold Qle in H. simpl in H.
    unfold py_int. simpl. apply Z.quot_pos; lia. }
  set (t := Qfloor start) in *.
  pose proof (Z.mod_pos_bound t 3600 ltac:(lia)) as Hm3600.
  pose proof (Z.mod_pos_bound t 60 ltac:(lia)) as Hs.
  assert (Hm : 0 <= (t mod 3600) / 60 < 60)
    by (split; [apply Z.div_pos; lia | apply Z.div_lt_upper_bound; lia]).
  assert (Hh : 0 <= t / 3600) by (apply Z.div_pos; lia).
  destruct (format_02d_spec (t / 3600) Hh) as (Hval & Hlen & Htwo & Hlead).
  assert (Hfields : start_time_str start =
            format_02d (t / 3600) +:+ ":" +:+
            two_digits ((t mod 3600) / 60) +:+ ":" +:+ two_digits (t mod 60)).
  { rewrite start_time_str_floor. fold t. unfold label_of_seconds.
    rewrite (format_02d_two_digits ((t mod 3600) / 60)) by lia.
    rewrite (format_02d_two_digits (t mod 60)) by lia. reflexivity. }
  split_and!; try assumption; try reflexivity.
  - apply start_time_str_floor.
  - intros Hlt. rewrite start_time_str_floor. apply label_of_seconds_length.
    fold t. lia.
  - intros Hlt. rewrite Hfields. unfold hhmmss. rewrite Htwo; [reflexivity|].
    apply Z.div_lt_upper_bound; lia.
  - exists (format_02d (t / 3600)). split_and!; try assumption.
    intros Hge. apply Hlead. apply Z.div_le_lower_bound; lia.
Qed.

Lemma start_label_truncates_to_hhmmss_witness :
  (0 <= 452967 # 10)%Q /\
  py_int (452967 # 10) = 45296 /\
  start_time_str (452967 # 10) = "12:34:56"%string.
Proof.
  assert (H : (0 <= 452967 # 10)%Q) by (unfold Qle; simpl; lia).
  split; [exact H|].
  destruct (start_label_truncates_to_hhmmss (452967 # 10) H)
    as (_ & _ & _ & _ & _ & E & _).
  split; [reflexivity | rewrite E; [reflexivity|]].
  vm_compute. reflexivity.
Defined.

(** C8.  When the gathered results carry the fragments, the final loop
    prints, fragment after fragment and phrase after phrase, each phrase
    with the label of its fragment; the number of lines is the sum of
    the numbers of phrases. *)
Theorem print_content_assembles
    (content : list (list SpeechRecognitionResult * string))
    (fragments : list TranscriptFragment) :
  Forall2 carries content fragments ->
  print_content content =
    (Return tt, map (fun l => EvPrint (render_line l)) (assemble fragments)) /\
  printed_lines (print_content content).2 =
    map render_line (assemble fragments) /\
  length (printed_lines (print_content content).2) =
    sum_list (map (fun f : TranscriptFragment => length f.2) fragments).
Proof.
  intros H.
  assert (E : print_content content =
    (Return tt, map (fun l => EvPrint (render_line l)) (assemble fragments))).
  { induction H as [|[transcript label] f content fragments [Hl Hp] _ IH];
      [reflexivity|].
    simpl in Hl, Hp. subst label. simpl.
    rewrite (print_transcript_phrases _ _ _ Hp), IH, assemble_cons, map_app.
    reflexivity. }
  rewrite E. simpl. rewrite printed_lines_prints, length_map, assemble_length.
  auto.
Qed.

Lemma print_content_assembles_witness :
  Forall2 carries content_example fragments_example /\
  print_content content_example =
    (Return tt,
     map (fun l => EvPrint (render_line l))
       [("00:00:00", "a"); ("00:00:00", "b"); ("00:01:02", "c")]%string) /\
  printed_lines (print_content content_example).2 =
    ["00:00:00 - a"; "00:00:00 - b"; "00:01:02 - c"]%string /\
  length (printed_lines (print_content content_example).2) = (2 + 1)%nat.
Proof.
  assert (H : Forall2 carries content_example fragments_example).
  { repeat constructor. }
  split; [exact H|].
  exact (print_content_assembles content_example fragments_example H).
Defined.

(** C9.  If the log of a run holds a segment cut that failed or a
    segment upload that raised, that event is the last one of the run:
    the run is left there with [CalledProcessError], [FileNotFoundError]
    or [SystemExit(1)], no recognition request is ever issued and no
    transcript line is printed. *)
Theorem segment_failure_aborts_run (fuel : nat) (env : Env)
    (order : list nat) (filename : string)
    (before : list event) (ev : event) (after : list event) :
  fan_events (transcript_from_local_file fuel env order filename) =
    before ++ ev :: after ->
  step_fails env ev = true ->
  after = [] /\
  (exists e,
     fan_outcome (transcript_from_local_file fuel env order filename) = Raise e /\
     abort_exn e) /\
  recognize_requests
    (fan_events (transcript_from_local_file fuel env order filename)) = [] /\
  printed_lines
    (fan_events (transcript_from_local_file fuel env order filename)) = [].
Proof.
  intros E Hf.
  destruct (run_events_shape fuel env order filename)
    as [[Hc _] | (init & last & e & E' & Hc & Ho & Ha & Hq1 & Hq2)].
  - exfalso. rewrite E in Hc. unfold clean in Hc.
    rewrite Forall_app, Forall_cons in Hc. destruct Hc as (_ & Hev & _).
    congruence.
  - split_and!.
    + rewrite E in E'. symmetry in E'.
      exact (failed_step_is_last env init last before ev after E' Hc Hf).
    + exists e. split; assumption.
    + exact Hq1.
    + exact Hq2.
Qed.

Lemma segment_failure_aborts_run_witness :
  fan_events
    (transcript_from_local_file 10 (env_upload_fails "audio_2.wav")
       [0; 1; 2]%nat "v.mp4") =
    [EvRun (FfmpegExtractAudio "videos/v.mp4" "v.mp4-tmp_audio.wav");
     EvRun (FfmpegToMono "v.mp4-tmp_audio.wav" "v.mp4-audio.wav");
     EvRemove "v.mp4-tmp_audio.wav";
     EvRun (FfprobeDuration "v.mp4-audio.wav");
     EvRun (FfmpegCut "00:00:00" "v.mp4-audio.wav" 62 "audio_1.wav");
     EvUpload "bucket" "audio_1.wav";
     EvRemove "audio_1.wav";
     EvRun (FfmpegCut "00:01:02" "v.mp4-audio.wav" 62 "audio_2.wav")]
    ++ EvUpload "bucket" "audio_2.wav" :: [] /\
  step_fails (env_upload_fails "audio_2.wav")
    (EvUpload "bucket" "audio_2.wav") = true /\
  fan_outcome
    (transcript_from_local_file 10 (env_upload_fails "audio_2.wav")
       [0; 1; 2]%nat "v.mp4") = Raise (SystemExit 1) /\
  recognize_requests
    (fan_events
       (transcript_from_local_file 10 (env_upload_fails "audio_2.wav")
          [0; 1; 2]%nat "v.mp4")) = [].
Proof.
  assert (E : fan_events
    (transcript_from_local_file 10 (env_upload_fails "audio_2.wav")
       [0; 1; 2]%nat "v.mp4") =
    [EvRun (FfmpegExtractAudio "videos/v.mp4" "v.mp4-tmp_audio.wav");
     EvRun (FfmpegToMono "v.mp4-tmp_audio.wav" "v.mp4-audio.wav");
     EvRemove "v.mp4-tmp_audio.wav";
     EvRun (FfprobeDuration "v.mp4-audio.wav");
     EvRun (FfmpegCut "00:00:00" "v.mp4-audio.wav" 62 "audio_1.wav");
     EvUpload "bucket" "audio_1.wav";
     EvRemove "audio_1.wav";
     EvRun (FfmpegCut "00:01:02" "v.mp4-audio.wav" 62 "audio_2.wav")]
    ++ EvUpload "bucket" "audio_2.wav" :: []) by reflexivity.
  assert (F : step_fails (env_upload_fails "audio_2.wav")
                (EvUpload "bucket" "audio_2.wav") = true) by reflexivity.
  split; [exact E|]. split; [exact F|]. split; [reflexivity|].
  exact (proj1 (proj2 (proj2
    (segment_failure_aborts_run 10 (env_upload_fails "audio_2.wav")
       [0; 1; 2]%nat "v.mp4" _ _ _ E F)))).
Defined.

(** C10.  Every recognition request of a run, whatever the file name,
    the environment, the fuel and the completion order, has language
    code "fr-FR", encoding [LINEAR16] and a timeout of 3600 seconds. *)
Theorem recognition_parameters_are_fixed (fuel : nat) (env : Env)
    (order : list nat) (filename : string) :
  Forall (fun r =>
            language_code (req_config r) = "fr-FR"%string /\
            encoding (req_config r) = LINEAR16 /\
            req_timeout r = 3600)
         (recognize_requests
            (fan_events (transcript_from_local_file fuel env order filename))).
Proof.
  destruct (run_events_shape fuel env order filename)
    as [[_ [segs ->]] | (init & last & e & _ & _ & _ & _ & -> & _)];
    [|constructor].
  induction segs as [|segment segs IH]; simpl; constructor; [|exact IH].
  split_and!; reflexivity.
Qed.

(** * Further properties of the planner loop *)

Section Trace.
Context (env : Env) (src : string) (duration seg : Q).

(** A pass of the body that returns made its three calls, and all three
    succeeded. *)
Lemma loop_body_returns (st st1 : loop_state) (evs : list event) :
  loop_body env src duration seg st = (Return st1, evs) ->
  st1 = next_state env src duration seg st /\
  evs = window_events env src
          {| index := segment_index st; win_start := start_time st;
             win_end := py_min (start_time st + seg)%Q duration |} /\
  clean env evs.
Proof.
  unfold loop_body. intros H.
  destruct (subprocess_run env _) as [out| |] eqn:Hcut; try discriminate.
  destruct (upload_from_filename env _ _) eqn:Hup; try discriminate.
  destruct (os_remove env _) eqn:Hrm; try discriminate.
  injection H as <- <-. split; [reflexivity|]. split; [reflexivity|].
  apply step_fails_cut in Hcut. apply step_fails_upload in Hup.
  constructor; [exact Hcut|]. constructor; [exact Hup|].
  constructor; [reflexivity | constructor].
Qed.

(** Whenever the loop is left by [return], its windows are the greedy
    plan, and segments and events are read off the windows. *)
Lemma while_loop_returns_trace :
  forall fuel st st' evs,
    while_loop fuel env src duration seg st = (Return st', evs) ->
    exists ws,
      greedy duration seg (start_time st) (segment_index st) ws
             (start_time st') /\
      windows st' = windows st ++ ws /\
      segments st' = segments st ++ map (segment_of_window env src) ws /\
      evs = concat (map (window_events env src) ws) /\
      clean env evs.
Proof.
  induction fuel as [|fuel IH]; intros st st' evs H; simpl in H.
  - destruct (Qltb (start_time st) duration) eqn:E; [discriminate|].
    injection H as <- <-. apply Qltb_ge in E.
    exists []. rewrite !app_nil_r.
    split; [split; [reflexivity | exact E]|].
    split_and!; try reflexivity; constructor.
  - destruct (Qltb (start_time st) duration) eqn:E.
    + apply Qltb_lt in E.
      destruct (loop_body env src duration seg st) as [[st1|e|] evs0] eqn:Hb;
        try discriminate.
      destruct (loop_body_returns _ _ _ Hb) as (-> & -> & Hc0).
      destruct (while_loop fuel env src duration seg _) as [r evs1] eqn:Hw.
      injection H as -> <-.
      destruct (IH _ _ _ Hw) as (ws & Hg & Hwin & Hseg & -> & Hc1).
      exists ({| index := segment_index st; win_start := start_time st;
                 win_end := py_min (start_time st + seg)%Q duration |} :: ws).
      split_and!.
      * simpl. split_and!; [exact E | reflexivity | exact Hg].
      * rewrite Hwin. simpl. now rewrite <- app_assoc.
      * rewrite Hseg. simpl. now rewrite <- app_assoc.
      * reflexivity.
      * exact (clean_app env _ _ Hc0 Hc1).
    + injection H as <- <-. apply Qltb_ge in E.
      exists []. rewrite !app_nil_r.
    split; [split; [reflexivity | exact E]|].
    split_and!; try reflexivity; constructor.
Qed.

(** In a greedy plan the windows are numbered consecutively, the window
    at position [n] starts [n] segment lengths after the first, and
    every window but the last has the full segment length. *)
Lemma greedy_lookup :
  forall ws s i s',
    greedy duration seg s i ws s' ->
    forall (n : nat) (w : SegmentWindow),
      ws !! n = Some w ->
      index w = i + Z.of_nat n /\
      (win_start w == s + inject_Z (Z.of_nat n) * seg)%Q /\
      (win_start w < duration)%Q /\
      win_end w = py_min (win_start w + seg)%Q duration /\
      ((S n < length ws)%nat -> win_end w = (win_start w + seg)%Q).
Proof.
  induction ws as [|w0 ws IH]; intros s i s' Hg n w Hn; [discriminate|].
  simpl in Hg. destruct Hg as (Hlt & -> & Hg). simpl in Hg.
  destruct n as [|n]; simpl in Hn.
  - injection Hn as <-. simpl. split_and!; try reflexivity; try assumption.
    + lia.
    + change (inject_Z (Z.of_nat 0)) with 0%Q. lra.
    + intros Hlen. destruct ws as [|w1 ws]; [simpl in Hlen; lia|].
      simpl in Hg. destruct Hg as (Hlt' & _ & _).
      destruct (py_min_spec (s + seg)%Q duration) as [[_ Hm]|[_ Hm]];
        [rewrite Hm in Hlt'; lra | exact Hm].
  - destruct (IH _ _ _ Hg n w Hn) as (Hi & Hs & Hd & He & Hfull).
    split_and!; try assumption.
    + lia.
    + rewrite Hs. rewrite inject_Z_of_nat_S.
      destruct ws as [|w1 ws]; [discriminate|].
      simpl in Hg. destruct Hg as (Hlt' & _ & _).
      destruct (py_min_spec (s + seg)%Q duration) as [[_ Hm]|[_ Hm]];
        [rewrite Hm in Hlt'; lra | rewrite Hm; lra].
    + intros Hlen. apply Hfull. simpl in Hlen. lia.
Qed.

(** Where a greedy plan stops: at or beyond [duration], and, when the
    segment length is positive and there is a window, within one segment
    length of the start of the last window. *)
Lemma greedy_stop :
  forall ws s i s',
    greedy duration seg s i ws s' ->
    (duration <= s')%Q /\
    (ws <> [] ->
     (s + inject_Z (Z.of_nat (length ws) - 1) * seg < duration)%Q /\
     (duration <= s + inject_Z (Z.of_nat (length ws)) * seg)%Q).
Proof.
  induction ws as [|w0 ws IH]; intros s i s' Hg; simpl in Hg.
  - destruct Hg as [-> Hle]. split; [exact Hle | congruence].
  - destruct Hg as (Hlt & -> & Hg). simpl in Hg.
    destruct (IH _ _ _ Hg) as [Hle Hrest]. split; [exact Hle|]. intros _.
    destruct ws as [|w1 ws].
    + simpl in Hg. destruct Hg as [_ Hge].
      change (inject_Z (Z.of_nat (length [?w]) - 1)) with 0%Q.
      change (inject_Z (Z.of_nat (length [?w]))) with 1%Q.
      destruct (py_min_spec (s + seg)%Q duration) as [[Hc Hm]|[Hc Hm]];
        rewrite Hm in Hge; split; lra.
    + destruct (Hrest ltac:(discriminate)) as [A B].
      assert (Hfull : py_min (s + seg)%Q duration = (s + seg)%Q).
      { simpl in Hg. destruct Hg as (Hlt' & _ & _).
        destruct (py_min_spec (s + seg)%Q duration) as [[_ Hm]|[_ Hm]];
          [rewrite Hm in Hlt'; lra | exact Hm]. }
      rewrite Hfull in A, B.
      change (length (?a :: w1 :: ws)) with (S (length (w1 :: ws))).
      rewrite Nat2Z.inj_succ. unfold Z.succ.
      replace (Z.of_nat (length (w1 :: ws)) + 1 - 1)
        with ((Z.of_nat (length (w1 :: ws)) - 1) + 1) by lia.
      rewrite !inject_Z_plus. change (inject_Z 1) with 1%Q.
      set (a := inject_Z (Z.of_nat (length (w1 :: ws)) - 1)) in *.
      set (b := inject_Z (Z.of_nat (length (w1 :: ws)))) in *.
      split; nra.
Qed.
End Trace.

(** * What a returned plan looks like *)

(** Unpacking a call of [split_audio_into_segments] that returned. *)
Lemma split_returns_trace fuel env src st :
  split_outcome (split_audio_into_segments fuel env src) = Return st ->
  exists duration seg,
    probe_duration env src = Return duration /\
    floordiv_float_pyval duration (SEGMENT_DIVIDER env) = inr seg /\
    greedy duration seg 0 1 (windows st) (start_time st) /\
    segments st = map (segment_of_window env src) (windows st) /\
    split_events (split_audio_into_segments fuel env src) =
      EvRun (FfprobeDuration src) ::
      concat (map (window_events env src) (windows st)).
Proof.
  unfold split_audio_into_segments.
  destruct (probe_duration env src) as [duration|e|]; try discriminate.
  destruct (floordiv_float_pyval duration (SEGMENT_DIVIDER env))
    as [e|seg] eqn:Hdiv; try discriminate.
  destruct (while_loop fuel env src duration seg initial_state)
    as [r evs] eqn:Hw.
  simpl. intros ->.
  destruct (while_loop_returns_trace _ _ _ _ _ _ _ _ Hw)
    as (ws & Hg & Hwin & Hseg & -> & _).
  simpl in Hg, Hwin, Hseg. subst ws.
  exists duration, seg. split_and!; auto.
Qed.

Lemma floordiv_int_inv duration d seg :
  floordiv_float_pyval duration (PyInt d) = inr seg ->
  d <> 0 /\ seg = inject_Z (Qfloor (duration / inject_Z d)).
Proof.
  unfold floordiv_float_pyval, py_floordiv.
  destruct (Z.eqb_spec d 0); [discriminate|].
  intros [= <-]. split; [assumption | reflexivity].
Qed.

(** X1.  Whenever the planner returns, window [n] (counted from 0) has
    index [n + 1], starts at [n] segment lengths, before [duration], and
    ends at [min(start + segment length, duration)]; every window but
    the last has exactly the segment length. *)
Theorem planned_windows_closed_form fuel env src duration d st :
  probe_duration env src = Return duration ->
  SEGMENT_DIVIDER env = PyInt d ->
  split_outcome (split_audio_into_segments fuel env src) = Return st ->
  forall (n : nat) (w : SegmentWindow),
    windows st !! n = Some w ->
    index w = Z.of_nat n + 1 /\
    (win_start w ==
       inject_Z (Z.of_nat n * Qfloor (duration / inject_Z d)))%Q /\
    (win_start w < duration)%Q /\
    win_end w =
      py_min (win_start w + inject_Z (Qfloor (duration / inject_Z d)))%Q
             duration /\
    ((S n < length (windows st))%nat ->
     (win_length w == inject_Z (Qfloor (duration / inject_Z d)))%Q).
Proof.
  intros Hp Hd Hret n w Hn.
  destruct (split_returns_trace _ _ _ _ Hret)
    as (duration' & seg & Hp' & Hdiv & Hg & _ & _).
  rewrite Hp in Hp'. injection Hp' as <-. rewrite Hd in Hdiv.
  apply floordiv_int_inv in Hdiv. destruct Hdiv as [_ ->].
  destruct (greedy_lookup _ _ _ _ _ _ Hg n w Hn) as (Hi & Hs & Hlt & He & Hfull).
  split_and!; try assumption.
  - lia.
  - rewrite Hs, inject_Z_mult. lra.
  - intros Hlen. unfold win_length. rewrite (Hfull Hlen). lra.
Qed.

Lemma planned_windows_closed_form_witness :
  probe_duration (env_ok (PyInt 2) 125 no_speech) "audio.wav" = Return 125%Q /\
  SEGMENT_DIVIDER (env_ok (PyInt 2) 125 no_speech) = PyInt 2 /\
  split_outcome
    (split_audio_into_segments 3 (env_ok (PyInt 2) 125 no_speech) "audio.wav")
    = Return {| segments := segments_example;
                start_time := 125;
                segment_index := 4;
                windows :=
                  [ {| index := 1; win_start := 0; win_end := 62 |};
                    {| index := 2; win_start := 62; win_end := 124 |};
                    {| index := 3; win_start := 124; win_end := 125 |} ] |} /\
  (62 == inject_Z (Z.of_nat 1 * Qfloor (125 / inject_Z 2)))%Q.
Proof.
  split; [reflexivity|]. split; [reflexivity|]. split; [reflexivity|].
  exact (proj1 (proj2
    (planned_windows_closed_form 3 (env_ok (PyInt 2) 125 no_speech)
       "audio.wav" 125 2 _ eq_refl eq_refl eq_refl 1%nat
       {| index := 2; win_start := 62; win_end := 124 |} eq_refl))).
Defined.

Lemma Qceiling_between (x : Q) (n : Z) :
  (inject_Z (n - 1) < x)%Q -> (x <= inject_Z n)%Q -> Qceiling x = n.
Proof.
  intros Hlo Hhi.
  pose proof (Qle_ceiling x) as H1. pose proof (Qceiling_lt x) as H2.
  assert (A : (inject_Z (n - 1) < inject_Z (Qceiling x))%Q) by lra.
  assert (B : (inject_Z (Qceiling x - 1) < inject_Z n)%Q) by lra.
  rewrite <- Zlt_Qlt in A, B. lia.
Qed.

(** X2.  For a positive duration and a positive integer divider whose
    quotient has a positive floor, a planner that returns has cut
    [ceil(duration / segment length)] segments; that number is at least
    the divider and at most twice the divider. *)
Theorem segment_count_bounds fuel env src duration d st :
  probe_duration env src = Return duration ->
  SEGMENT_DIVIDER env = PyInt d ->
  (0 < duration)%Q -> 0 < d -> 0 < Qfloor (duration / inject_Z d) ->
  split_outcome (split_audio_into_segments fuel env src) = Return st ->
  length (segments st) = length (windows st) /\
  Z.of_nat (length (windows st)) =
    Qceiling (duration / inject_Z (Qfloor (duration / inject_Z d))) /\
  d <= Z.of_nat (length (windows st)) <= 2 * d.
Proof.
  intros Hp Hd Hdur Hdpos Hk Hret.
  destruct (split_returns_trace _ _ _ _ Hret)
    as (duration' & seg & Hp' & Hdiv & Hg & Hsegs & _).
  rewrite Hp in Hp'. injection Hp' as <-. rewrite Hd in Hdiv.
  apply floordiv_int_inv in Hdiv. destruct Hdiv as [_ ->].
  set (k := Qfloor (duration / inject_Z d)) in *.
  set (n := Z.of_nat (length (windows st))).
  assert (Hne : windows st <> []).
  { intros E. rewrite E in Hg. simpl in Hg. lra. }
  destruct (greedy_stop _ _ _ _ _ _ Hg) as [_ Hstop].
  destruct (Hstop Hne) as [Hlo Hhi]. fold n in Hlo, Hhi.
  assert (Hkq : (0 < inject_Z k)%Q).
  { change 0%Q with (inject_Z 0). now rewrite <- Zlt_Qlt. }
  assert (Hdq : (0 < inject_Z d)%Q).
  { change 0%Q with (inject_Z 0). now rewrite <- Zlt_Qlt. }
  assert (Hlo' : (inject_Z ((n - 1) * k) < duration)%Q)
    by (rewrite inject_Z_mult; lra).
  assert (Hhi' : (duration <= inject_Z (n * k))%Q)
    by (rewrite inject_Z_mult; lra).
  (* the floor of the quotient *)
  assert (Hfl : (inject_Z (k * d) <= duration)%Q /\
                (duration < inject_Z ((k + 1) * d))%Q).
  { pose proof (Qfloor_le (duration / inject_Z d)) as F1.
    pose proof (Qlt_floor (duration / inject_Z d)) as F2. fold k in F1, F2.
    rewrite !inject_Z_mult.
    assert (E : (duration == (duration / inject_Z d) * inject_Z d)%Q).
    { field. intros C. rewrite C in Hdq. lra. }
    set (q := (duration / inject_Z d)%Q) in *.
    split.
    - rewrite E. apply Qmult_le_compat_r; lra.
    - rewrite E at 1. apply Qmult_lt_compat_r; [lra | exact F2]. }
  destruct Hfl as [Hfl1 Hfl2].
  split_and!.
  - rewrite Hsegs. apply length_map.
  - symmetry. apply Qceiling_between.
    + apply Qlt_shift_div_l; [exact Hkq|]. rewrite <- inject_Z_mult. exact Hlo'.
    + apply Qle_shift_div_r; [exact Hkq|]. rewrite <- inject_Z_mult. exact Hhi'.
  - assert (A : (inject_Z (k * d) <= inject_Z (n * k))%Q) by lra.
    rewrite <- Zle_Qle in A. nia.
  - assert (B : (inject_Z ((n - 1) * k) < inject_Z ((k + 1) * d))%Q) by lra.
    rewrite <- Zlt_Qlt in B. nia.
Qed.

Lemma segment_count_bounds_witness :
  probe_duration (env_ok (PyInt 2) 125 no_speech) "audio.wav" = Return 125%Q /\
  SEGMENT_DIVIDER (env_ok (PyInt 2) 125 no_speech) = PyInt 2 /\
  (0 < 125)%Q /\ 0 < 2 /\ 0 < Qfloor (125 / inject_Z 2) /\
  Z.of_nat 3 = Qceiling (125 / inject_Z (Qfloor (125 / inject_Z 2))) /\
  2 <= Z.of_nat 3 <= 2 * 2.
Proof.
  assert (Hdur : (0 < 125)%Q) by (unfold Qlt; simpl; lia).
  assert (Hk : 0 < Qfloor (125 / inject_Z 2)) by (vm_compute; reflexivity).
  split; [reflexivity|]. split; [reflexivity|]. split; [exact Hdur|].
  split; [lia|]. split; [exact Hk|].
  exact (proj2
    (segment_count_bounds 3 (env_ok (PyInt 2) 125 no_speech) "audio.wav"
       125 2 _ eq_refl eq_refl Hdur ltac:(lia) Hk eq_refl)).
Defined.

(** * Labels, names and external calls of a returned plan *)

Lemma string_app_inv_head (p s1 s2 : string) :
  p +:+ s1 = p +:+ s2 -> s1 = s2.
Proof.
  induction p as [|c p IH]; simpl; [auto|]. intros [= H]. now apply IH.
Qed.

Lemma string_app_inv_tail (s1 s2 t : string) :
  s1 +:+ t = s2 +:+ t -> s1 = s2.
Proof.
  revert s2. induction s1 as [|c s1 IH]; intros [|c' s2] H; simpl in H.
  - reflexivity.
  - apply (f_equal String.length) in H.
    rewrite !string_length_app in H. simpl in H. lia.
  - apply (f_equal String.length) in H.
    rewrite !string_length_app in H. simpl in H. lia.
  - injection H as -> H. f_equal. now apply IH.
Qed.

(** The decimal text of an integer tells the integer. *)
Lemma py_str_of_int_inj (a b : Z) :
  py_str_of_int a = py_str_of_int b -> a = b.
Proof.
  unfold py_str_of_int. intros H.
  assert (P : forall z, NilZero.int_of_string
                          (NilZero.string_of_int (Z.to_int z)) =
                        Some (Z.to_int z)).
  { intros z. apply NilZero.isi; destruct z; simpl; try discriminate.
    - intros [= E]. now apply DecimalPos.Unsigned.to_uint_nonnil in E.
    - intros [= E]. now apply DecimalPos.Unsigned.to_uint_nonnil in E. }
  apply DecimalZ.to_int_inj.
  pose proof (P a) as Pa. rewrite H, P in Pa. now injection Pa.
Qed.

Lemma output_gcs_uri_inj env src (i j : Z) :
  output_gcs_uri_of env (segment_filename_of env src i) =
  output_gcs_uri_of env (segment_filename_of env src j) -> i = j.
Proof.
  unfold output_gcs_uri_of, segment_filename_of. intros H.
  repeat apply string_app_inv_head in H.
  apply string_app_inv_tail in H. now apply py_str_of_int_inj.
Qed.

(** X3.  Whenever the planner returns, segment [n] (counted from 0) is
    named after index [n + 1] in the bucket, and its label is that of
    [n] whole segment lengths: every start is a whole number of seconds,
    so the label loses nothing to truncation. *)
Theorem segment_names_and_labels fuel env src duration d st :
  probe_duration env src = Return duration ->
  SEGMENT_DIVIDER env = PyInt d ->
  split_outcome (split_audio_into_segments fuel env src) = Return st ->
  forall (n : nat) (segment : string * string),
    segments st !! n = Some segment ->
    segment.1 =
      "gs://" +:+ py_str (BUCKET_NAME env) +:+ "/" +:+
      splitext_root env src +:+ "_" +:+ py_str_of_int (Z.of_nat n + 1) +:+
      ".wav" /\
    segment.2 =
      label_of_seconds (Z.of_nat n * Qfloor (duration / inject_Z d)) /\
    exists w, windows st !! n = Some w /\
              (win_start w ==
                 inject_Z (Z.of_nat n * Qfloor (duration / inject_Z d)))%Q.
Proof.
  intros Hp Hd Hret n segment Hn.
  destruct (split_returns_trace _ _ _ _ Hret)
    as (duration' & seg & Hp' & Hdiv & Hg & Hsegs & _).
  rewrite Hp in Hp'. injection Hp' as <-. rewrite Hd in Hdiv.
  apply floordiv_int_inv in Hdiv. destruct Hdiv as [_ ->].
  rewrite Hsegs in Hn.
  change (map (segment_of_window env src) (windows st))
    with (segment_of_window env src <$> windows st) in Hn.
  rewrite list_lookup_fmap in Hn.
  destruct (windows st !! n) as [w|] eqn:Hw; [|discriminate].
  simpl in Hn. injection Hn as <-.
  destruct (greedy_lookup _ _ _ _ _ _ Hg n w Hw) as (Hi & Hs & _).
  assert (Hs' : (win_start w ==
                   inject_Z (Z.of_nat n * Qfloor (duration / inject_Z d)))%Q)
    by (rewrite Hs, inject_Z_mult; ring).
  split_and!.
  - unfold segment_of_window, output_gcs_uri_of, segment_filename_of. simpl.
    rewrite Hi. replace (1 + Z.of_nat n) with (Z.of_nat n + 1) by lia.
    reflexivity.
  - unfold segment_of_window. simpl. rewrite start_time_str_floor.
    now rewrite Hs', Qfloor_Z.
  - exists w. split; [reflexivity | exact Hs'].
Qed.

Lemma segment_names_and_labels_witness :
  probe_duration (env_ok (PyInt 2) 125 no_speech) "audio.wav" = Return 125%Q /\
  SEGMENT_DIVIDER (env_ok (PyInt 2) 125 no_speech) = PyInt 2 /\
  split_outcome
    (split_audio_into_segments 3 (env_ok (PyInt 2) 125 no_speech) "audio.wav")
    = Return {| segments := segments_example;
                start_time := 125;
                segment_index := 4;
                windows :=
                  [ {| index := 1; win_start := 0; win_end := 62 |};
                    {| index := 2; win_start := 62; win_end := 124 |};
                    {| index := 3; win_start := 124; win_end := 125 |} ] |} /\
  "00:02:04"%string =
    label_of_seconds (Z.of_nat 2 * Qfloor (125 / inject_Z 2)).
Proof.
  split; [reflexivity|]. split; [reflexivity|]. split; [reflexivity|].
  exact (proj1 (proj2
    (segment_names_and_labels 3 (env_ok (PyInt 2) 125 no_speech)
       "audio.wav" 125 2 _ eq_refl eq_refl eq_refl 2%nat
       ("gs://bucket/audio_3.wav", "00:02:04")%string eq_refl))).
Defined.

(** X4.  Whenever the planner returns, no two segments share a URI: no
    upload overwrote another segment in the bucket. *)
Theorem segment_uris_are_distinct fuel env src st :
  split_outcome (split_audio_into_segments fuel env src) = Return st ->
  NoDup (map fst (segments st)).
Proof.
  intros Hret.
  destruct (split_returns_trace _ _ _ _ Hret)
    as (duration & seg & _ & _ & Hg & Hsegs & _).
  rewrite Hsegs. apply NoDup_alt. intros i j uri Hi Hj.
  change (map fst (map (segment_of_window env src) (windows st)))
    with (fst <$> (segment_of_window env src <$> windows st)) in Hi, Hj.
  rewrite !list_lookup_fmap in Hi, Hj.
  destruct (windows st !! i) as [wi|] eqn:Hwi; [|discriminate].
  destruct (windows st !! j) as [wj|] eqn:Hwj; [|discriminate].
  simpl in Hi, Hj. injection Hi as Hi. injection Hj as Hj.
  rewrite <- Hj in Hi. apply output_gcs_uri_inj in Hi.
  destruct (greedy_lookup _ _ _ _ _ _ Hg i wi Hwi) as (Ei & _).
  destruct (greedy_lookup _ _ _ _ _ _ Hg j wj Hwj) as (Ej & _).
  lia.
Qed.

Lemma segment_uris_are_distinct_witness :
  split_outcome
    (split_audio_into_segments 3 (env_ok (PyInt 2) 125 no_speech) "audio.wav")
    = Return {| segments := segments_example;
                start_time := 125;
                segment_index := 4;
                windows :=
                  [ {| index := 1; win_start := 0; win_end := 62 |};
                    {| index := 2; win_start := 62; win_end := 124 |};
                    {| index := 3; win_start := 124; win_end := 125 |} ] |} /\
  NoDup (map fst segments_example).
Proof.
  split; [reflexivity|].
  exact (segment_uris_are_distinct 3 (env_ok (PyInt 2) 125 no_speech)
           "audio.wav" _ eq_refl).
Defined.

(** X5.  Whenever the planner returns, its external calls were exactly:
    the probe, then for each window in order the cut (seek label of the
    window start, length of the window, file named after the index),
    the upload of that file and its local removal; all of them
    succeeded, and the returned segments are those of the windows. *)
Theorem planner_calls_follow_windows fuel env src st :
  split_outcome (split_audio_into_segments fuel env src) = Return st ->
  split_events (split_audio_into_segments fuel env src) =
    EvRun (FfprobeDuration src) ::
    concat (map (window_events env src) (windows st)) /\
  length (split_events (split_audio_into_segments fuel env src)) =
    (1 + 3 * length (segments st))%nat /\
  segments st = map (segment_of_window env src) (windows st) /\
  clean env (split_events (split_audio_into_segments fuel env src)).
Proof.
  intros Hret.
  destruct (split_returns_trace _ _ _ _ Hret)
    as (duration & seg & _ & _ & _ & Hsegs & Hev).
  pose proof (split_events_shape fuel env src) as [_ Hclean].
  simpl in Hclean. rewrite Hret in Hclean.
  split_and!; try assumption.
  rewrite Hev, Hsegs, length_map. simpl. f_equal.
  clear. induction (windows st) as [|w ws IH]; simpl; [reflexivity|].
  rewrite IH. lia.
Qed.

Lemma planner_calls_follow_windows_witness :
  split_outcome
    (split_audio_into_segments 3 (env_ok (PyInt 2) 125 no_speech) "audio.wav")
    = Return {| segments := segments_example;
                start_time := 125;
                segment_index := 4;
                windows :=
                  [ {| index := 1; win_start := 0; win_end := 62 |};
                    {| index := 2; win_start := 62; win_end := 124 |};
                    {| index := 3; win_start := 124; win_end := 125 |} ] |} /\
  length
    (split_events
       (split_audio_into_segments 3 (env_ok (PyInt 2) 125 no_speech)
          "audio.wav")) = (1 + 3 * 3)%nat.
Proof.
  split; [reflexivity|].
  exact (proj1 (proj2
    (planner_calls_follow_windows 3 (env_ok (PyInt 2) 125 no_speech)
       "audio.wav" _ eq_refl))).
Defined.

(** * Further properties of the fan-out and of the final loop *)

Section GatherFailure.
Context {A : Type}.

(** A task that ended with an exception leaves its slot empty, so the
    wait cannot end with a list of results; it ends with the exception
    of some failed task once the failed task has completed. *)
Lemma gather_wait_with_failed_task (tasks : list (exn + A)) (i : nat)
    (e : exn) :
  tasks !! i = Some (inl e) ->
  forall order slots seen,
    slots !! i = Some None ->
    (forall l, gather_outcome (gather_wait tasks slots seen order)
               <> Return l) /\
    (forall e', gather_outcome (gather_wait tasks slots seen order)
                = Raise e' ->
                exists j, tasks !! j = Some (inl e')) /\
    (i ∈ order ->
     exists e', gather_outcome (gather_wait tasks slots seen order)
                = Raise e').
Proof.
  intros Hi. induction order as [|j order IH]; intros slots seen Hslot; simpl;
    rewrite (results_of_slots_pending _ _ Hslot).
  - simpl. split_and!; try discriminate. intros H. inversion H.
  - destruct (tasks !! j) as [[e'|a]|] eqn:Hj; simpl.
    + split_and!; try discriminate.
      * intros e'' [= <-]. now exists j.
      * intros _. now exists e'.
    + assert (Hne : j <> i) by congruence.
      destruct (IH (<[j := Some a]> slots) (seen ++ [j])) as (H1 & H2 & H3).
      { rewrite list_lookup_insert_ne by exact Hne. exact Hslot. }
      split_and!; try assumption.
      intros Hin. apply H3. apply elem_of_cons in Hin.
      destruct Hin as [->|]; [congruence | assumption].
    + assert (Hne : j <> i) by congruence.
      destruct (IH slots seen Hslot) as (H1 & H2 & H3).
      split_and!; try assumption.
      intros Hin. apply H3. apply elem_of_cons in Hin.
      destruct Hin as [->|]; [congruence | assumption].
Qed.
End GatherFailure.

Lemma task_lookup env (segs : list (string * string)) (i : nat) :
  map fst (map (fun segment =>
             run_async_transcribe env segment.1 segment.2) segs) !! i =
  (fun segment : string * string =>
     match long_running_recognize env (transcribe_request segment.1) with
     | inl e => inl e
     | inr results => inr (results, segment.2)
     end) <$> segs !! i.
Proof.
  change (map fst (map (fun segment =>
            run_async_transcribe env segment.1 segment.2) segs))
    with (fst <$> ((fun segment =>
            run_async_transcribe env segment.1 segment.2) <$> segs)).
  rewrite !list_lookup_fmap. now destruct (segs !! i).
Qed.

(** X6.  If the worker of some segment fails, then whatever the order in
    which the workers complete, the run never returns normally and
    prints no transcript line; any exception it is left with is the
    exception of a failed worker, and it is left with one as soon as the
    failed worker is among those that complete. *)
Theorem fan_out_with_failed_worker env order segs (i : nat)
    (segment : string * string) (e : exn) :
  segs !! i = Some segment ->
  worker_fails env segment e ->
  printed_lines (fan_events (fan_out env order segs)) = [] /\
  (forall u, fan_outcome (fan_out env order segs) <> Return u) /\
  (forall e', fan_outcome (fan_out env order segs) = Raise e' ->
     exists j s, segs !! j = Some s /\ worker_fails env s e') /\
  (i ∈ order -> exists e', fan_outcome (fan_out env order segs) = Raise e').
Proof.
  intros Hi He.
  assert (Ht : map fst (map (fun segment =>
                 run_async_transcribe env segment.1 segment.2) segs) !! i
               = Some (inl e)).
  { rewrite task_lookup, Hi. simpl. unfold worker_fails in He. now rewrite He. }
  assert (Hslot : replicate (length (map fst (map (fun segment =>
                    run_async_transcribe env segment.1 segment.2) segs)))
                    (@None (list SpeechRecognitionResult * string)) !! i
                  = Some None).
  { apply lookup_replicate. split; [reflexivity|].
    eapply lookup_lt_Some; exact Ht. }
  destruct (gather_wait_with_failed_task _ i e Ht order _ [] Hslot)
    as (H1 & H2 & H3).
  unfold fan_out. rewrite started_events. fold (gather (map fst (map (fun segment =>
    run_async_transcribe env segment.1 segment.2) segs)) order) in H1, H2, H3.
  destruct (gather_outcome _) as [content|e'|] eqn:Ho; simpl.
  - exfalso. exact (H1 content eq_refl).
  - split_and!; try discriminate.
    + apply printed_lines_started.
    + intros e'' Heq. injection Heq as Heq. subst e''.
      destruct (H2 e' eq_refl) as [j Hj].
      rewrite task_lookup in Hj. destruct (segs !! j) as [s|] eqn:Hs;
        [|discriminate].
      simpl in Hj. exists j, s. split; [exact Hs|]. unfold worker_fails.
      destruct (long_running_recognize env _); congruence.
    + intros _. now exists e'.
  - split_and!; try discriminate.
    + apply printed_lines_started.
    + intros Hin. destruct (H3 Hin) as [e' He']. discriminate.
Qed.

Lemma fan_out_with_failed_worker_witness :
  segments_example !! 1%nat =
    Some ("gs://bucket/audio_2.wav", "00:01:02")%string /\
  worker_fails
    (env_ok (PyInt 2) 125 (timeout_on ["gs://bucket/audio_2.wav"]%string))
    ("gs://bucket/audio_2.wav", "00:01:02")%string TimeoutError /\
  printed_lines
    (fan_events
       (fan_out
          (env_ok (PyInt 2) 125
             (timeout_on ["gs://bucket/audio_2.wav"]%string))
          [2; 0; 1]%nat segments_example)) = [].
Proof.
  split; [reflexivity|]. split; [reflexivity|].
  exact (proj1
    (fan_out_with_failed_worker
       (env_ok (PyInt 2) 125 (timeout_on ["gs://bucket/audio_2.wav"]%string))
       [2; 0; 1]%nat segments_example 1%nat
       ("gs://bucket/audio_2.wav", "00:01:02")%string TimeoutError
       eq_refl eq_refl)).
Defined.

Lemma print_transcript_only_prints (label : string)
    (transcript : list SpeechRecognitionResult) :
  exists lines, (print_transcript label transcript).2 = map EvPrint lines.
Proof.
  induction transcript as [|result transcript [lines IH]]; simpl.
  - now exists [].
  - destruct (alternatives result) as [|alt others]; [now exists []|].
    destruct (print_transcript label transcript) as [r evs]. simpl in *.
    exists ((label +:+ " - " +:+ alt) :: lines). now rewrite IH.
Qed.

Lemma print_content_only_prints
    (content : list (list SpeechRecognitionResult * string)) :
  exists lines, (print_content content).2 = map EvPrint lines.
Proof.
  induction content as [|[transcript label] content [lines IH]]; simpl.
  - now exists [].
  - destruct (print_transcript_only_prints label transcript) as [l1 H1].
    destruct (print_transcript label transcript) as [[[]|e|] evs];
      simpl in *; try (now exists l1).
    destruct (print_content content) as [r evs']. simpl in *.
    exists (l1 ++ lines). now rewrite map_app, H1, IH.
Qed.

(** X7.  Whatever the workers end with and in whatever order, the
    fan-out first issues exactly one recognition request per segment,
    in segment order, for that segment's URI, and after that does
    nothing but print. *)
Theorem fan_out_requests_then_prints env order
    (segs : list (string * string)) :
  exists lines,
    fan_events (fan_out env order segs) =
      map (fun segment => EvRecognize (transcribe_request segment.1)) segs ++
      map EvPrint lines /\
    length (recognize_requests (fan_events (fan_out env order segs))) =
      length segs.
Proof.
  assert (Hlen : length (recognize_requests
                           (fan_events (fan_out env order segs))) =
                 length segs).
  { rewrite (proj2 (fan_out_events env order segs)). apply length_map. }
  assert (Hev : exists lines,
             fan_events (fan_out env order segs) =
               map (fun segment => EvRecognize (transcribe_request segment.1))
                   segs ++ map EvPrint lines).
  { unfold fan_out. rewrite started_events.
    destruct (gather_outcome _) as [content|e|]; simpl.
    - destruct (print_content_only_prints content) as [lines Hl].
      destruct (print_content content) as [r evs]. simpl in *.
      exists lines. now rewrite Hl.
    - exists []. now rewrite app_nil_r.
    - exists []. now rewrite app_nil_r. }
  destruct Hev as [lines Hev]. exists lines. split; assumption.
Qed.

Lemma print_content_carries
    (content : list (list SpeechRecognitionResult * string))
    (fragments : list TranscriptFragment) :
  Forall2 carries content fragments ->
  print_content content =
    (Return tt, map (fun l => EvPrint (render_line l)) (assemble fragments)).
Proof.
  induction 1 as [|[transcript label] f content fragments [Hl Hp] _ IH];
    [reflexivity|].
  simpl in Hl, Hp. subst label. simpl.
  rewrite (print_transcript_phrases _ _ _ Hp), IH, assemble_cons, map_app.
  reflexivity.
Qed.

Lemma print_content_app
    (c1 c2 : list (list SpeechRecognitionResult * string))
    (evs1 : list event) :
  print_content c1 = (Return tt, evs1) ->
  print_content (c1 ++ c2) =
    ((print_content c2).1, evs1 ++ (print_content c2).2).
Proof.
  revert evs1. induction c1 as [|[transcript label] c1 IH]; intros evs1 H.
  - simpl in H. injection H as <-. simpl. now destruct (print_content c2).
  - simpl in H |- *.
    destruct (print_transcript label transcript) as [[[]|e|] evs];
      try discriminate.
    destruct (print_content c1) as [r evs'] eqn:E1.
    injection H as -> <-. rewrite (IH evs' eq_refl).
    now rewrite app_assoc.
Qed.

Lemma print_transcript_missing_alternative (label : string)
    (transcript1 : list SpeechRecognitionResult) (phrases : list string)
    (result : SpeechRecognitionResult)
    (transcript2 : list SpeechRecognitionResult) :
  Forall2 (fun result phrase => head (alternatives result) = Some phrase)
          transcript1 phrases ->
  alternatives result = [] ->
  print_transcript label (transcript1 ++ result :: transcript2) =
    (Raise IndexError,
     map (fun l => EvPrint (render_line l)) (map (pair label) phrases)).
Proof.
  intros H Hr. induction H as [|r p t ps Hh _ IH]; simpl.
  - now rewrite Hr.
  - destruct (alternatives r) as [|alt others]; [discriminate|].
    simpl in Hh. injection Hh as ->. now rewrite IH.
Qed.

(** X8.  A recognition result without alternatives makes the final loop
    raise [IndexError] at that result: the lines of everything before
    it, earlier fragments and earlier phrases of the same fragment, have
    been printed by then, and nothing after it is. *)
Theorem print_content_missing_alternative
    (content1 : list (list SpeechRecognitionResult * string))
    (fragments : list TranscriptFragment)
    (transcript1 : list SpeechRecognitionResult) (phrases : list string)
    (result : SpeechRecognitionResult)
    (transcript2 : list SpeechRecognitionResult) (label : string)
    (content2 : list (list SpeechRecognitionResult * string)) :
  Forall2 carries content1 fragments ->
  Forall2 (fun result phrase => head (alternatives result) = Some phrase)
          transcript1 phrases ->
  alternatives result = [] ->
  print_content
    (content1 ++ (transcript1 ++ result :: transcript2, label) :: content2) =
    (Raise IndexError,
     map (fun l => EvPrint (render_line l))
         (assemble fragments ++ map (pair label) phrases)).
Proof.
  intros Hc Hp Hr.
  rewrite (print_content_app _ _ _ (print_content_carries _ _ Hc)).
  simpl. rewrite (print_transcript_missing_alternative _ _ _ _ _ Hp Hr).
  simpl. now rewrite map_app.
Qed.

Lemma print_content_missing_alternative_witness :
  Forall2 carries content_example fragments_example /\
  Forall2 (fun result phrase => head (alternatives result) = Some phrase)
          [{| alternatives := ["d"%string] |}] ["d"%string] /\
  alternatives {| alternatives := [] |} = [] /\
  printed_lines
    (print_content
       (content_example ++
        ([{| alternatives := ["d"%string] |}] ++
         {| alternatives := [] |} :: [{| alternatives := ["e"%string] |}],
         "00:02:04"%string) :: [])).2 =
    ["00:00:00 - a"; "00:00:00 - b"; "00:01:02 - c"; "00:02:04 - d"]%string.
Proof.
  assert (Hc : Forall2 carries content_example fragments_example)
    by (repeat constructor).
  assert (Hp : Forall2 (fun result phrase =>
                          head (alternatives result) = Some phrase)
                 [{| alternatives := ["d"%string] |}] ["d"%string])
    by (repeat constructor).
  split; [exact Hc|]. split; [exact Hp|]. split; [reflexivity|].
  rewrite (print_content_missing_alternative content_example
             fragments_example _ _ {| alternatives := [] |}
             [{| alternatives := ["e"%string] |}] "00:02:04"%string []
             Hc Hp eq_refl).
  reflexivity.
Defined.

(** * The whole run *)

(** Once extraction has completed and conversion has returned, the run
    is the plan-and-transcribe part on the converted file. *)
Lemma run_after_conversion fuel env order filename out ok evs2 :
  subprocess_run env
    (FfmpegExtractAudio ("videos/" +:+ filename)
                        (filename +:+ "-tmp_audio.wav")) = Completed out ->
  convert_to_mono env (filename +:+ "-tmp_audio.wav")
                  (filename +:+ "-audio.wav") = (Return ok, evs2) ->
  fan_outcome (transcript_from_local_file fuel env order filename) =
    (plan_and_transcribe fuel env order (filename +:+ "-audio.wav")).1 /\
  fan_events (transcript_from_local_file fuel env order filename) =
    [EvRun (FfmpegExtractAudio ("videos/" +:+ filename)
                               (filename +:+ "-tmp_audio.wav"))] ++
    evs2 ++
    (plan_and_transcribe fuel env order (filename +:+ "-audio.wav")).2.
Proof.
  intros Hx Hc. unfold transcript_from_local_file, extract_audio_from_gcs,
    plan_and_transcribe.
  rewrite Hx, Hc.
  destruct (split_outcome _); simpl; split; reflexivity.
Qed.



(** X9.  A failed extraction ends the run with [SystemExit(1)] after
    that single [ffmpeg] call: nothing is converted, probed, cut,
    uploaded or transcribed. *)
Theorem extraction_failure_exits fuel env order filename :
  (forall out,
     subprocess_run env
       (FfmpegExtractAudio ("videos/" +:+ filename)
                           (filename +:+ "-tmp_audio.wav"))
     <> Completed out) ->
  fan_outcome (transcript_from_local_file fuel env order filename) =
    Raise (SystemExit 1) /\
  fan_events (transcript_from_local_file fuel env order filename) =
    [EvRun (FfmpegExtractAudio ("videos/" +:+ filename)
                               (filename +:+ "-tmp_audio.wav"))].
Proof.
  intros H. unfold transcript_from_local_file, extract_audio_from_gcs.
  destruct (subprocess_run env _) as [out| |] eqn:E;
    [exfalso; exact (H out eq_refl) | |]; split; reflexivity.
Qed.

(** X10.  A failed mono conversion does not stop the run: its result is
    not looked at, the extracted audio is not removed, and the run goes
    on to probe, split and transcribe the file the conversion was to
    write. *)
Theorem conversion_failure_is_ignored fuel env order filename out :
  subprocess_run env
    (FfmpegExtractAudio ("videos/" +:+ filename)
                        (filename +:+ "-tmp_audio.wav")) = Completed out ->
  (forall out',
     subprocess_run env
       (FfmpegToMono (filename +:+ "-tmp_audio.wav")
                     (filename +:+ "-audio.wav")) <> Completed out') ->
  convert_to_mono env (filename +:+ "-tmp_audio.wav")
                  (filename +:+ "-audio.wav") =
    (Return false,
     [EvRun (FfmpegToMono (filename +:+ "-tmp_audio.wav")
                          (filename +:+ "-audio.wav"))]) /\
  fan_outcome (transcript_from_local_file fuel env order filename) =
    (plan_and_transcribe fuel env order (filename +:+ "-audio.wav")).1 /\
  fan_events (transcript_from_local_file fuel env order filename) =
    [EvRun (FfmpegExtractAudio ("videos/" +:+ filename)
                               (filename +:+ "-tmp_audio.wav"));
     EvRun (FfmpegToMono (filename +:+ "-tmp_audio.wav")
                         (filename +:+ "-audio.wav"))] ++
    (plan_and_transcribe fuel env order (filename +:+ "-audio.wav")).2.
Proof.
  intros Hx Hm.
  assert (Hc : convert_to_mono env (filename +:+ "-tmp_audio.wav")
                 (filename +:+ "-audio.wav") =
               (Return false,
                [EvRun (FfmpegToMono (filename +:+ "-tmp_audio.wav")
                                     (filename +:+ "-audio.wav"))])).
  { unfold convert_to_mono.
    destruct (subprocess_run env (FfmpegToMono _ _)) as [out'| |] eqn:E;
      [exfalso; exact (Hm out' eq_refl) | |]; reflexivity. }
  split; [exact Hc|].
  exact (run_after_conversion fuel env order filename out false _ Hx Hc).
Qed.

Lemma extraction_failure_exits_witness :
  (forall out,
     subprocess_run (env_ffmpeg_fails is_extract)
       (FfmpegExtractAudio ("videos/" +:+ "v.mp4")
                           ("v.mp4" +:+ "-tmp_audio.wav"))
     <> Completed out) /\
  fan_outcome
    (transcript_from_local_file 3 (env_ffmpeg_fails is_extract)
       [0; 1; 2]%nat "v.mp4") = Raise (SystemExit 1) /\
  fan_events
    (transcript_from_local_file 3 (env_ffmpeg_fails is_extract)
       [0; 1; 2]%nat "v.mp4") =
    [EvRun (FfmpegExtractAudio ("videos/" +:+ "v.mp4")
                               ("v.mp4" +:+ "-tmp_audio.wav"))].
Proof.
  assert (H : forall out,
             subprocess_run (env_ffmpeg_fails is_extract)
               (FfmpegExtractAudio ("videos/" +:+ "v.mp4")
                                   ("v.mp4" +:+ "-tmp_audio.wav"))
             <> Completed out) by (intros out; simpl; discriminate).
  split; [exact H|].
  exact (extraction_failure_exits 3 (env_ffmpeg_fails is_extract)
           [0; 1; 2]%nat "v.mp4" H).
Defined.

Lemma conversion_failure_is_ignored_witness :
  subprocess_run (env_ffmpeg_fails is_mono)
    (FfmpegExtractAudio ("videos/" +:+ "v.mp4")
                        ("v.mp4" +:+ "-tmp_audio.wav")) = Completed "" /\
  (forall out',
     subprocess_run (env_ffmpeg_fails is_mono)
       (FfmpegToMono ("v.mp4" +:+ "-tmp_audio.wav")
                     ("v.mp4" +:+ "-audio.wav")) <> Completed out') /\
  fan_outcome
    (transcript_from_local_file 3 (env_ffmpeg_fails is_mono)
       [0; 1; 2]%nat "v.mp4") = Return tt /\
  printed_lines
    (fan_events
       (transcript_from_local_file 3 (env_ffmpeg_fails is_mono)
          [0; 1; 2]%nat "v.mp4")) =
    ["00:00:00 - gs://bucket/audio_1.wav";
     "00:01:02 - gs://bucket/audio_2.wav";
     "00:02:04 - gs://bucket/audio_3.wav"]%string.
Proof.
  assert (Hm : forall out',
             subprocess_run (env_ffmpeg_fails is_mono)
               (FfmpegToMono ("v.mp4" +:+ "-tmp_audio.wav")
                             ("v.mp4" +:+ "-audio.wav")) <> Completed out')
    by (intros out'; simpl; discriminate).
  split; [reflexivity|]. split; [exact Hm|].
  destruct (conversion_failure_is_ignored 3 (env_ffmpeg_fails is_mono)
              [0; 1; 2]%nat "v.mp4" "" eq_refl Hm) as (_ & Ho & He).
  rewrite Ho, He. split; reflexivity.
Defined.









(** * The segment length, and labels that tell segments apart *)

(** X13.  With a positive integer divider the global [segment_duration]
    is written before the loop is entered, and keeps its value whatever
    the loop does afterwards: a whole number [k] of seconds with
    [k * d <= duration < (k + 1) * d]. *)
Theorem segment_duration_is_written_first fuel env src duration d :
  probe_duration env src = Return duration ->
  SEGMENT_DIVIDER env = PyInt d ->
  0 < d ->
  exists k : Z,
    segment_duration_global (split_audio_into_segments fuel env src) =
      Some (inject_Z k) /\
    k = Qfloor (duration / inject_Z d) /\
    (inject_Z (k * d) <= duration)%Q /\
    (duration < inject_Z ((k + 1) * d))%Q.
Proof.
  intros Hp Hd Hpos. exists (Qfloor (duration / inject_Z d)).
  split; [|split; [reflexivity|]].
  - unfold split_audio_into_segments. rewrite Hp, Hd. simpl.
    destruct (Z.eqb_spec d 0); [lia|].
    destruct (while_loop _ _ _ _ _ _). reflexivity.
  - assert (Hdq : (0 < inject_Z d)%Q).
    { change 0%Q with (inject_Z 0). now rewrite <- Zlt_Qlt. }
    pose proof (Qfloor_le (duration / inject_Z d)) as F1.
    pose proof (Qlt_floor (duration / inject_Z d)) as F2.
    rewrite !inject_Z_mult.
    assert (E : (duration == (duration / inject_Z d) * inject_Z d)%Q).
    { field. intros C. rewrite C in Hdq. lra. }
    set (q := (duration / inject_Z d)%Q) in *.
    split.
    + rewrite E. apply Qmult_le_compat_r; lra.
    + rewrite E at 1. apply Qmult_lt_compat_r; [lra | exact F2].
Qed.

Lemma segment_duration_is_written_first_witness :
  probe_duration (env_upload_fails "audio_1.wav") "audio.wav" = Return 125%Q /\
  SEGMENT_DIVIDER (env_upload_fails "audio_1.wav") = PyInt 2 /\
  0 < 2 /\
  split_outcome
    (split_audio_into_segments 3 (env_upload_fails "audio_1.wav")
       "audio.wav") = Raise (SystemExit 1) /\
  exists k : Z,
    segment_duration_global
      (split_audio_into_segments 3 (env_upload_fails "audio_1.wav")
         "audio.wav") = Some (inject_Z k) /\
    k = Qfloor (125 / inject_Z 2) /\
    (inject_Z (k * 2) <= 125)%Q /\
    (125 < inject_Z ((k + 1) * 2))%Q.
Proof.
  split; [reflexivity|]. split; [reflexivity|]. split; [lia|].
  split; [reflexivity|].
  exact (segment_duration_is_written_first 3
           (env_upload_fails "audio_1.wav") "audio.wav" 125 2
           eq_refl eq_refl ltac:(lia)).
Defined.

(** X14.  With a positive duration and a non-zero integer divider whose
    quotient has no positive floor (a divider larger than the duration,
    or a negative one), the planner never returns: it is left with
    [CalledProcessError], [FileNotFoundError] or [SystemExit(1)] when an
    external call fails, and otherwise runs on without end. *)
Theorem planner_needs_positive_segment_length fuel env src duration d :
  probe_duration env src = Return duration ->
  SEGMENT_DIVIDER env = PyInt d -> d <> 0 ->
  (0 < duration)%Q -> Qfloor (duration / inject_Z d) <= 0 ->
  (forall st,
     split_outcome (split_audio_into_segments fuel env src) <> Return st) /\
  (forall e,
     split_outcome (split_audio_into_segments fuel env src) = Raise e ->
     abort_exn e) /\
  (externals_succeed env ->
   split_outcome (split_audio_into_segments fuel env src) = Diverges).
Proof.
  intros Hp Hd Hnz Hdur Hk.
  assert (Hseg : (py_floordiv duration (inject_Z d) <= 0)%Q).
  { unfold py_floordiv. change 0%Q with (inject_Z 0). now rewrite <- Zle_Qle. }
  unfold split_audio_into_segments. rewrite Hp, Hd. simpl.
  destruct (Z.eqb_spec d 0); [contradiction|].
  pose proof (while_loop_never_returns env src duration _ Hseg Hdur fuel
                initial_state (Qle_refl 0)) as Hnever.
  pose proof (while_loop_events env src duration
                (py_floordiv duration (inject_Z d)) fuel initial_state)
    as [_ Hev].
  split_and!.
  - intros st. specialize (Hnever st).
    destruct (while_loop _ _ _ _ _ _) as [r evs]. exact Hnever.
  - intros e. destruct (while_loop _ _ _ _ _ _) as [r evs]. simpl in *.
    intros ->. apply Hev.
  - intros Hext.
    destruct (while_loop_stuck env src duration _ Hseg Hdur Hext fuel
                initial_state (Qle_refl 0)) as (evs & -> & _).
    reflexivity.
Qed.

Lemma planner_needs_positive_segment_length_witness :
  probe_duration (env_ok (PyInt (-2)) 5 no_speech) "audio.wav" = Return 5%Q /\
  SEGMENT_DIVIDER (env_ok (PyInt (-2)) 5 no_speech) = PyInt (-2) /\
  -2 <> 0 /\ (0 < 5)%Q /\ Qfloor (5 / inject_Z (-2)) <= 0 /\
  split_outcome
    (split_audio_into_segments 9 (env_ok (PyInt (-2)) 5 no_speech)
       "audio.wav") = Diverges.
Proof.
  assert (Hdur : (0 < 5)%Q) by (unfold Qlt; simpl; lia).
  assert (Hk : Qfloor (5 / inject_Z (-2)) <= 0) by (vm_compute; discriminate).
  split; [reflexivity|]. split; [reflexivity|]. split; [lia|].
  split; [exact Hdur|]. split; [exact Hk|].
  apply (planner_needs_positive_segment_length 9
           (env_ok (PyInt (-2)) 5 no_speech) "audio.wav" 5 (-2)
           eq_refl eq_refl ltac:(lia) Hdur Hk).
  apply env_ok_externals_succeed.
Defined.

Lemma string_app_inv_length (s1 s2 t1 t2 : string) :
  String.length s1 = String.length s2 ->
  s1 +:+ t1 = s2 +:+ t2 -> s1 = s2 /\ t1 = t2.
Proof.
  revert s2. induction s1 as [|c s1 IH]; intros [|c' s2] Hlen H;
    simpl in Hlen; try discriminate.
  - split; [reflexivity | exact H].
  - simpl in H. injection H as -> H. injection Hlen as Hlen.
    destruct (IH s2 Hlen H) as [-> ->]. split; reflexivity.
Qed.

Lemma format_02d_inj (a b : Z) :
  0 <= a < 100 -> 0 <= b < 100 -> format_02d a = format_02d b -> a = b.
Proof.
  intros Ha Hb H.
  assert (A : forallb (fun x => forallb (fun y =>
                 implb (String.eqb (format_02d (Z.of_nat x))
                                   (format_02d (Z.of_nat y)))
                       (Nat.eqb x y)) (seq 0 100)) (seq 0 100) = true)
    by (vm_compute; reflexivity).
  rewrite forallb_forall in A.
  pose proof (A (Z.to_nat a) ltac:(apply in_seq; lia)) as A1.
  rewrite forallb_forall in A1.
  pose proof (A1 (Z.to_nat b) ltac:(apply in_seq; lia)) as A2.
  rewrite !Z2Nat.id, H, String.eqb_refl in A2 by lia. simpl in A2.
  apply Nat.eqb_eq in A2. lia.
Qed.

(** Below a hundred hours the label tells the whole second. *)
Lemma label_of_seconds_inj (t u : Z) :
  0 <= t < 360000 -> 0 <= u < 360000 ->
  label_of_seconds t = label_of_seconds u -> t = u.
Proof.
  intros Ht Hu H. unfold label_of_seconds in H.
  assert (B : forall x, 0 <= x < 360000 ->
            0 <= x / 3600 < 100 /\ 0 <= (x mod 3600) / 60 < 100 /\
            0 <= x mod 60 < 100).
  { intros x Hx. pose proof (Z.mod_pos_bound x 3600 ltac:(lia)).
    pose proof (Z.mod_pos_bound x 60 ltac:(lia)).
    split_and!; try lia; try (apply Z.div_pos; lia);
      apply Z.div_lt_upper_bound; lia. }
  destruct (B t Ht) as (Ht1 & Ht2 & Ht3). destruct (B u Hu) as (Hu1 & Hu2 & Hu3).
  apply string_app_inv_length in H;
    [|now rewrite !format_02d_length by assumption].
  destruct H as [Hh H]. apply string_app_inv_head in H.
  apply string_app_inv_length in H;
    [|now rewrite !format_02d_length by assumption].
  destruct H as [Hm H]. apply string_app_inv_head in H.
  apply format_02d_inj in Hh, Hm, H; try assumption.
  rewrite (Z.div_mod t 3600), (Z.div_mod u 3600) by lia.
  rewrite (Z.div_mod (t mod 3600) 60), (Z.div_mod (u mod 3600) 60) by lia.
  rewrite !(Z.mod_mod_divide _ 3600 60) by (now exists 60).
  congruence.
Qed.

(** X15.  For an audio of at most a hundred hours, a positive integer
    divider and a positive segment length, the start labels of the
    segments the planner returns are pairwise distinct: a label in the
    transcript names one segment. *)
Theorem segment_labels_are_distinct fuel env src duration d st :
  probe_duration env src = Return duration ->
  SEGMENT_DIVIDER env = PyInt d ->
  0 < Qfloor (duration / inject_Z d) ->
  (duration <= 360000)%Q ->
  split_outcome (split_audio_into_segments fuel env src) = Return st ->
  NoDup (map snd (segments st)).
Proof.
  intros Hp Hd Hk Hmax Hret.
  destruct (split_returns_trace _ _ _ _ Hret)
    as (duration' & seg & Hp' & Hdiv & Hg & Hsegs & _).
  rewrite Hp in Hp'. injection Hp' as <-. rewrite Hd in Hdiv.
  apply floordiv_int_inv in Hdiv. destruct Hdiv as [_ ->].
  set (k := Qfloor (duration / inject_Z d)) in *.
  rewrite Hsegs. apply NoDup_alt. intros i j label Hi Hj.
  change (map snd (map (segment_of_window env src) (windows st)))
    with (snd <$> (segment_of_window env src <$> windows st)) in Hi, Hj.
  rewrite !list_lookup_fmap in Hi, Hj.
  destruct (windows st !! i) as [wi|] eqn:Hwi; [|discriminate].
  destruct (windows st !! j) as [wj|] eqn:Hwj; [|discriminate].
  simpl in Hi, Hj. injection Hi as Hi. injection Hj as Hj.
  rewrite <- Hj in Hi. rewrite !start_time_str_floor in Hi.
  assert (F : forall (n : nat) (w : SegmentWindow),
            windows st !! n = Some w ->
            Qfloor (win_start w) = Z.of_nat n * k /\
            0 <= Z.of_nat n * k < 360000).
  { intros n w Hw.
    destruct (greedy_lookup _ _ _ _ _ _ Hg n w Hw) as (_ & Hs & Hlt & _).
    assert (Hs' : (win_start w == inject_Z (Z.of_nat n * k))%Q)
      by (rewrite Hs, inject_Z_mult; ring).
    split; [now rewrite Hs', Qfloor_Z|].
    split; [nia|].
    assert (Hb : (inject_Z (Z.of_nat n * k) < inject_Z 360000)%Q).
    { rewrite <- Hs'. change (inject_Z 360000) with 360000%Q. lra. }
    now rewrite <- Zlt_Qlt in Hb. }
  destruct (F i wi Hwi) as [Ei Bi]. destruct (F j wj Hwj) as [Ej Bj].
  rewrite Ei, Ej in Hi. apply label_of_seconds_inj in Hi; try assumption.
  nia.
Qed.

Lemma segment_labels_are_distinct_witness :
  probe_duration (env_ok (PyInt 2) 125 echo_uri) "audio.wav" = Return 125%Q /\
  SEGMENT_DIVIDER (env_ok (PyInt 2) 125 echo_uri) = PyInt 2 /\
  0 < Qfloor (125 / inject_Z 2) /\
  (125 <= 360000)%Q /\
  split_outcome
    (split_audio_into_segments 3 (env_ok (PyInt 2) 125 echo_uri) "audio.wav")
    = Return state_example /\
  NoDup (map snd (segments state_example)).
Proof.
  assert (Hk : 0 < Qfloor (125 / inject_Z 2)) by (vm_compute; reflexivity).
  assert (Hmax : (125 <= 360000)%Q) by (unfold Qle; simpl; lia).
  split; [reflexivity|]. split; [reflexivity|]. split; [exact Hk|].
  split; [exact Hmax|]. split; [reflexivity|].
  exact (segment_labels_are_distinct 3 (env_ok (PyInt 2) 125 echo_uri)
           "audio.wav" 125 2 state_example eq_refl eq_refl Hk Hmax eq_refl).
Defined.
